(** * The kfctl client: rate-limited endpoints, bounded retry, response
      classification

    A shallow embedding of [bootstrap/cmd/bootstrap/app/kfctlClient.go].
    Effectful Go code is written in state-passing style over a world; the
    Go libraries the client calls ([cenkalti/backoff], [go-kit] endpoints and
    rate limiting, [net/url]) are embedded as far as the client uses them. *)

From Stdlib Require Import ZArith Ascii String List Lia Bool.
From stdpp Require Import base list.
Import ListNotations.

Set Implicit Arguments.
Set Default Proof Using "Type".

(** ** [time] *)

(** [time.Duration] is an [int64] count of nanoseconds. *)
Definition Duration := Z.

Module time.
Definition Nanosecond : Duration := 1%Z.
Definition Second : Duration := 1000000000%Z.
End time.

(** ** Values of the program *)

Section Client.

(** [kfdefs.KfDef] and [httpError] are declared outside this file; the
    client only moves them around.  [Dyn] stands for the values of every
    other dynamic type an [interface{}] can hold, [TErr] for the errors of
    the HTTP transport (connection, timeout, encoding, decoding), [URL] for
    [url.URL] and [Limiter] for a pointer to a [rate.Limiter]. *)
Context {KfDef httpError Dyn TErr URL Limiter : Type}.

(** The state everything outside the client lives in: clock, network,
    remote service, logger, heap. *)
Context {World : Type}.

(** A Go [interface{}]: the nil interface, or a dynamic type with its
    value.  A pointer is [None] (nil) or [Some] of its pointee, so
    [IKfDefPtr None] is a nil pointer whose type is pointer-to-[KfDef]. *)
Inductive iface : Type :=
| INil
| IKfDef (v : KfDef)
| IKfDefPtr (p : option KfDef)
| IhttpErrorPtr (p : option httpError)
| IDyn (v : Dyn).

(** A non-nil Go [error]; the nil error is [None : option error].
    [PermanentError Err] is the wrapper that [backoff.Permanent] builds
    around the error [Err], which may be nil; the pointer to the wrapper
    itself is never nil. *)
Unset Elimination Schemes.
Inductive error : Type :=
| ErrLimited
| TransportError (e : TErr)
| EhttpErrorPtr (p : option httpError)
| Errorf (msg : string)
| PermanentError (Err : option error).
Set Elimination Schemes.

(** [context.Context]: the background context, or a context derived from
    it (by cancellation, deadline or timeout) whose [Done] channel the
    world closes; [k] names it. *)
Inductive Context : Type :=
| Background
| Derived (k : nat).

(** [endpoint.Endpoint]:
    [func(ctx context.Context, request interface{}) (interface{}, error)]. *)
Definition Endpoint : Type :=
  Context -> iface -> World -> (iface * option error) * World.

(** [endpoint.Middleware]. *)
Definition Middleware : Type := Endpoint -> Endpoint.

(** The type assertions of [resp] to pointer-to-[KfDef] and to
    pointer-to-[httpError], in their comma-ok form: the asserted value (the
    zero value, a nil pointer, when the assertion fails) and whether it
    held. *)
Definition assert_KfDefPtr (resp : iface) : option KfDef * bool :=
  match resp with
  | IKfDefPtr p => (p, true)
  | _ => (None, false)
  end.

Definition assert_httpErrorPtr (resp : iface) : option httpError * bool :=
  match resp with
  | IhttpErrorPtr p => (p, true)
  | _ => (None, false)
  end.

(** The type assertion of an error to pointer-to-[PermanentError], in its
    comma-ok form. *)
Definition assert_PermanentError (err : error) : option error * bool :=
  match err with
  | PermanentError Err => (Err, true)
  | _ => (None, false)
  end.

(** ** What the client takes from its surroundings *)

Inductive Level : Type := InfoLevel | ErrorLevel.

(** [timerWait d] lets a timer of [d] run out; [ctxClosed k] tells whether
    the [Done] channel of the derived context [k] is closed; [logEntry] is
    logrus; [Pformat] is the pretty printer of this package, declared in
    another file, whose error the client drops. *)
Record Runtime : Type := {
  timerWait : Duration -> World -> World;
  ctxClosed : nat -> World -> bool;
  logEntry : Level -> string -> World -> World;
  Pformat : iface -> string * option error
}.

(** A rate, kept as the interval between two events. *)
Definition Limit := Duration.

(** [url.Parse]; [copyURL] and [KfctlCreatePath], declared in another file
    of this package; [rate.NewLimiter] and [Allow] of
    [golang.org/x/time/rate]; and [httpClient method tgt], the endpoint
    [httptransport.NewClient(method, tgt, encodeHTTPGenericRequest,
    decodeHTTPKfdefResponse).Endpoint()]: encode, one HTTP round trip,
    decode. *)
Record Platform : Type := {
  url_Parse : string -> URL + error;
  copyURL : URL -> string -> URL;
  KfctlCreatePath : string;
  rate_NewLimiter : Limit -> Z -> World -> Limiter * World;
  rate_Allow : Limiter -> World -> bool * World;
  httpClient : string -> URL -> Endpoint
}.

Variable rt : Runtime.
Variable pf : Platform.

Definition Done (ctx : Context) (w : World) : bool :=
  match ctx with
  | Background => false
  | Derived k => ctxClosed rt k w
  end.

(** ** [github.com/cenkalti/backoff] *)

Definition Stop : Duration := (-1)%Z.

(** The two back-off policies the client builds.  [maxTries] and
    [numTries] are [uint64]. *)
Inductive BackOff : Type :=
| ConstantBackOff (Interval : Duration)
| backOffTries (delegate : BackOff) (maxTries numTries : Z).

Definition NewConstantBackOff (d : Duration) : BackOff := ConstantBackOff d.

Definition WithMaxRetries (b : BackOff) (max : Z) : BackOff :=
  backOffTries b max 0.

Definition uint64 (z : Z) : Z := (z mod 2 ^ 64)%Z.

(** [NextBackOff] returns the pause before the next retry, or [Stop], and
    the policy as the call leaves it. *)
Fixpoint NextBackOff (b : BackOff) : Duration * BackOff :=
  match b with
  | ConstantBackOff i => (i, b)
  | backOffTries d maxTries numTries =>
      if (0 <? maxTries)%Z then
        if (maxTries <=? numTries)%Z then (Stop, b)
        else
          let '(next, d') := NextBackOff d in
          (next, backOffTries d' maxTries (uint64 (numTries + 1)))
      else
        let '(next, d') := NextBackOff d in
        (next, backOffTries d' maxTries numTries)
  end.

Fixpoint Reset (b : BackOff) : BackOff :=
  match b with
  | ConstantBackOff i => b
  | backOffTries d maxTries _ => backOffTries (Reset d) maxTries 0
  end.

(** [ensureContext]: a policy that was not built by [WithContext] runs
    under [context.Background()]. *)
Definition ensureContext (b : BackOff) : BackOff * Context := (b, Background).

(** An [Operation] is a closure [func() error]; [V] is the type of the
    variables it captures and assigns. *)
Definition Operation (V : Type) : Type :=
  V -> World -> (option error * V) * World.

(** The loop of [Retry]: call the operation; a permanent error ends the
    loop at once with the error it wraps; on any other error ask the policy
    for the next pause, give up on [Stop], otherwise wait for the timer or
    for the policy's context, whichever comes first.  The context is the
    policy's, not the caller's.  [fuel] bounds the number of calls of the
    operation; [None] means the fuel ran out before the loop ended. *)
Fixpoint retryLoop {V : Type} (fuel : nat) (operation : Operation V)
    (ctx : Context) (b : BackOff) (v : V) (w : World)
  : option ((option error * V) * World) :=
  match fuel with
  | O => None
  | S fuel' =>
      let '((err, v1), w1) := operation v w in
      match err with
      | None => Some ((None, v1), w1)
      | Some e =>
          let '(Err, ok) := assert_PermanentError e in
          if ok then Some ((Err, v1), w1)
          else
            let '(next, b1) :=
              if Done ctx w1 then (Stop, b) else NextBackOff b in
            if (next =? Stop)%Z then Some ((Some e, v1), w1)
            else
              let w2 := timerWait rt next w1 in
              if Done ctx w2 then Some ((Some e, v1), w2)
              else retryLoop fuel' operation ctx b1 v1 w2
      end
  end.

Definition Retry {V : Type} (fuel : nat) (o : Operation V) (b : BackOff)
    (v : V) (w : World) : option ((option error * V) * World) :=
  let '(b', ctx) := ensureContext b in
  retryLoop fuel o ctx (Reset b') v w.

(** ** [github.com/go-kit/kit/ratelimit] *)

(** [NewErroringLimiter]: ask the limiter; when it refuses, fail with
    [ErrLimited] without calling [next]. *)
Definition NewErroringLimiter (Allow : World -> bool * World) : Middleware :=
  fun next ctx request w =>
    let '(ok, w1) := Allow w in
    if negb ok then ((INil, Some ErrLimited), w1)
    else next ctx request w1.

(** [rate.Every]. *)
Definition Every (interval : Duration) : Limit := interval.

(** ** [KfctlClient] *)

Record KfctlClient : Type := {
  createEndpoint : Endpoint;
  getEndpoint : Endpoint
}.

(** The sanitising of lines 28-30. *)
Definition sanitize (instance : string) : string :=
  if negb (String.prefix "http" instance) then "http://" ++ instance
  else instance.

(** [NewKfctlClient], lines 26-75. *)
Definition NewKfctlClient (instance : string) (w : World)
  : (option KfctlClient * option error) * World :=
  let instance := sanitize instance in
  match url_Parse pf instance with
  | inr err => ((None, Some err), w)
  | inl u =>
      let '(l, w1) := rate_NewLimiter pf (Every time.Second) 100 w in
      let limiter := NewErroringLimiter (rate_Allow pf l) in
      let createEndpoint :=
        limiter (httpClient pf "POST" (copyURL pf u (KfctlCreatePath pf))) in
      let getEndpoint :=
        limiter (httpClient pf "POST" (copyURL pf u (KfctlCreatePath pf))) in
      ((Some {| createEndpoint := createEndpoint;
                getEndpoint := getEndpoint |}, None), w1)
  end.

(** What a method of the client returns: a pointer to [KfDef] and an
    [error]. *)
Definition Result : Type := option KfDef * option error.

Definition unexpected : string := "Recieved unexpected response; ".

(** [CreateDeployment], lines 78-112.  The closure captures and assigns
    [resp] and [err]. *)
Definition CreateDeployment (fuel : nat) (c : KfctlClient)
    (ctx : Context) (req : KfDef) (w : World) : option (Result * World) :=
  let bo := WithMaxRetries (NewConstantBackOff (2 * time.Second)%Z) 30 in
  let operation : Operation (iface * option error) :=
    fun _ w =>
      let '((resp, err), w') := createEndpoint c ctx (IKfDef req) w in
      ((err, (resp, err)), w') in
  match Retry fuel operation bo (INil, None) w with
  | None => None
  | Some ((permErr, (resp, _)), w1) =>
      Some
        match permErr with
        | Some e => ((None, Some e), w1)
        | None =>
            let '(response, ok) := assert_KfDefPtr resp in
            if ok then ((response, None), w1)
            else
              let w2 := logEntry rt InfoLevel "Response is not type *KfDef" w1 in
              let '(resErr, ok) := assert_httpErrorPtr resp in
              if ok then ((None, Some (EhttpErrorPtr resErr)), w2)
              else
                let w3 :=
                  logEntry rt InfoLevel "Response is not type *httpError" w2 in
                let '(pRes, _) := Pformat rt resp in
                let w4 := logEntry rt ErrorLevel (unexpected ++ pRes) w3 in
                ((None, Some (Errorf (unexpected ++ pRes))), w4)
        end
  end.

(** [GetLatestKfdef], lines 114-137. *)
Definition GetLatestKfdef (c : KfctlClient) (req : KfDef) (w : World)
  : Result * World :=
  let '((resp, err), w1) := getEndpoint c Background (IKfDef req) w in
  match err with
  | Some e => ((None, Some e), w1)
  | None =>
      let '(response, ok) := assert_KfDefPtr resp in
      if ok then ((response, None), w1)
      else
        let w2 := logEntry rt InfoLevel "Response is not type *KfDef" w1 in
        let '(resErr, ok) := assert_httpErrorPtr resp in
        if ok then ((None, Some (EhttpErrorPtr resErr)), w2)
        else
          let w3 :=
            logEntry rt InfoLevel "Response is not type *httpError" w2 in
          let '(pRes, _) := Pformat rt resp in
          let w4 := logEntry rt ErrorLevel (unexpected ++ pRes) w3 in
          ((None, Some (Errorf (unexpected ++ pRes))), w4)
  end.

End Client.

(** ** The classifier of the specification *)

Section Classifier.

Context {KfDef httpError Dyn TErr World : Type}.

(** The outcome of one remote call, after classification. *)
Inductive RemoteOutcome : Type :=
| DomainResult (d : option KfDef)
| RemoteError (e : option httpError)
| UnclassifiedResponse (raw : @iface KfDef httpError Dyn).

(** The ordered three-way branch, over any two shape tests: the success
    shape is tried first, the error shape second. *)
Definition ClassifyBy {Raw D E Out : Type}
    (success : Raw -> option D) (failure : Raw -> option E)
    (onSuccess : D -> Out) (onError : E -> Out) (otherwise : Raw -> Out)
    (raw : Raw) : Out :=
  match success raw with
  | Some d => onSuccess d
  | None =>
      match failure raw with
      | Some e => onError e
      | None => otherwise raw
      end
  end.

(** The two shapes of this client are the two type assertions. *)
Definition successShape (raw : @iface KfDef httpError Dyn)
  : option (option KfDef) :=
  let '(p, ok) := assert_KfDefPtr raw in if ok then Some p else None.

Definition errorShape (raw : @iface KfDef httpError Dyn)
  : option (option httpError) :=
  let '(p, ok) := assert_httpErrorPtr raw in if ok then Some p else None.

Definition Classify : @iface KfDef httpError Dyn -> RemoteOutcome :=
  ClassifyBy successShape errorShape
             DomainResult RemoteError UnclassifiedResponse.

(** The result a classified outcome is mapped to. *)
Definition resultOf (rt : @Runtime KfDef httpError Dyn TErr World)
    (o : RemoteOutcome) : @Result KfDef httpError TErr :=
  match o with
  | DomainResult d => (d, None)
  | RemoteError e => (None, Some (EhttpErrorPtr e))
  | UnclassifiedResponse raw =>
      (None, Some (Errorf (unexpected ++ fst (Pformat rt raw))))
  end.

(** What a call that came back with [(resp, err)] amounts to for the
    caller. *)
Definition finish (rt : @Runtime KfDef httpError Dyn TErr World)
    (o : @iface KfDef httpError Dyn * option (@error httpError TErr))
  : @Result KfDef httpError TErr :=
  match snd o with
  | Some e => (None, Some e)
  | None => resultOf rt (Classify (fst o))
  end.

(** Exactly one of a result and an error. *)
Definition exactlyOne (r : @Result KfDef httpError TErr) : Prop :=
  (fst r <> None /\ snd r = None) \/ (fst r = None /\ snd r <> None).

End Classifier.

(** ** Observing a run *)

Section Observing.

Context {KfDef httpError Dyn TErr URL Limiter World : Type}.

(** What an observer of the client sees: an endpoint call coming back, a
    timer running out, the limiter being asked, an HTTP round trip. *)
Inductive Obs : Type :=
| ObsCall (resp : @iface KfDef httpError Dyn)
          (err : option (@error httpError TErr))
| ObsWait (d : Duration)
| ObsAllow (l : Limiter) (ok : bool)
| ObsHTTP (method : string) (target : URL).

(** A world with the observer's notebook. *)
Definition Spied : Type := World * list Obs.

Definition spyRuntime (rt : @Runtime KfDef httpError Dyn TErr World)
  : @Runtime KfDef httpError Dyn TErr Spied :=
  {| timerWait := fun d '(w, l) => (timerWait rt d w, l ++ [ObsWait d]);
     ctxClosed := fun k '(w, _) => ctxClosed rt k w;
     logEntry := fun lv s '(w, l) => (logEntry rt lv s w, l);
     Pformat := Pformat rt |}.

Definition spyEndpoint (ep : @Endpoint KfDef httpError Dyn TErr World)
  : @Endpoint KfDef httpError Dyn TErr Spied :=
  fun ctx req '(w, l) =>
    let '((resp, err), w') := ep ctx req w in
    ((resp, err), (w', l ++ [ObsCall resp err])).

Definition spyClient (c : @KfctlClient KfDef httpError Dyn TErr World)
  : @KfctlClient KfDef httpError Dyn TErr Spied :=
  {| createEndpoint := spyEndpoint (createEndpoint c);
     getEndpoint := spyEndpoint (getEndpoint c) |}.

Definition spyPlatform
    (pf : @Platform KfDef httpError Dyn TErr URL Limiter World)
  : @Platform KfDef httpError Dyn TErr URL Limiter Spied :=
  {| url_Parse := url_Parse pf;
     copyURL := copyURL pf;
     KfctlCreatePath := KfctlCreatePath pf;
     rate_NewLimiter := fun r b '(w, l) =>
       let '(x, w') := rate_NewLimiter pf r b w in (x, (w', l));
     rate_Allow := fun x '(w, l) =>
       let '(ok, w') := rate_Allow pf x w in
       (ok, (w', l ++ [ObsAllow x ok]));
     httpClient := fun m u ctx req '(w, l) =>
       let '(r, w') := httpClient pf m u ctx req w in
       (r, (w', l ++ [ObsHTTP m u])) |}.

Definition outcome : Type :=
  @iface KfDef httpError Dyn * option (@error httpError TErr).

Definition failed (o : outcome) : Prop := snd o <> None.

(** An outcome after which [Retry] goes on if it may: an error that is not
    a permanent one. *)
Definition retryableb (o : outcome) : bool :=
  match snd o with
  | Some e => negb (snd (assert_PermanentError e))
  | None => false
  end.

Definition retryable (o : outcome) : Prop := retryableb o = true.

(** The error [Retry] hands back for the error of the call that ended it:
    a permanent error gives way to the error it wraps. *)
Definition unwrap (err : option (@error httpError TErr))
  : option (@error httpError TErr) :=
  match err with
  | Some e =>
      let '(Err, ok) := assert_PermanentError e in
      if ok then Err else Some e
  | None => None
  end.

Definition settle (o : outcome) : outcome := (fst o, unwrap (snd o)).

(** The notebook of a retried call: the calls in order, a pause of [d]
    between each two. *)
Fixpoint retryTrace (d : Duration) (os : list outcome) : list Obs :=
  match os with
  | [] => []
  | o :: rest =>
      match rest with
      | [] => [ObsCall (fst o) (snd o)]
      | _ :: _ => ObsCall (fst o) (snd o) :: ObsWait d :: retryTrace d rest
      end
  end.

Fixpoint callsOf (log : list Obs) : list outcome :=
  match log with
  | [] => []
  | ObsCall r e :: log' => (r, e) :: callsOf log'
  | _ :: log' => callsOf log'
  end.

Fixpoint waitsOf (log : list Obs) : list Duration :=
  match log with
  | [] => []
  | ObsWait d :: log' => d :: waitsOf log'
  | _ :: log' => waitsOf log'
  end.

Fixpoint allowsOf (log : list Obs) : list (Limiter * bool) :=
  match log with
  | [] => []
  | ObsAllow l ok :: log' => (l, ok) :: allowsOf log'
  | _ :: log' => allowsOf log'
  end.

Fixpoint httpOf (log : list Obs) : list (string * URL) :=
  match log with
  | [] => []
  | ObsHTTP m u :: log' => (m, u) :: httpOf log'
  | _ :: log' => httpOf log'
  end.

(** The retry loop with the policy of [CreateDeployment] spelled out: at
    most [k] retries, a pause of [d] before each. *)
Fixpoint attempts {V : Type} (rt : @Runtime KfDef httpError Dyn TErr World)
    (op : @Operation httpError TErr World V) (d : Duration) (k : nat)
    (v : V) (w : World) : (option error * V) * World :=
  let '((err, v1), w1) := op v w in
  match err with
  | None => ((None, v1), w1)
  | Some e =>
      let '(Err, ok) := assert_PermanentError e in
      if ok then ((Err, v1), w1)
      else
        match k with
        | O => ((Some e, v1), w1)
        | S k' => attempts rt op d k' v1 (timerWait rt d w1)
        end
  end.

(** The closure of [CreateDeployment]. *)
Definition createOp (ep : @Endpoint KfDef httpError Dyn TErr World)
    (ctx : Context) (req : KfDef)
  : @Operation httpError TErr World
               (@iface KfDef httpError Dyn * option (@error httpError TErr)) :=
  fun _ w =>
    let '((resp, err), w') := ep ctx (IKfDef req) w in
    ((err, (resp, err)), w').

(** The endpoint [NewKfctlClient] builds twice: an HTTP client behind the
    limiter [l]. *)
Definition limitedPost
    (pf : @Platform KfDef httpError Dyn TErr URL Limiter World)
    (l : Limiter) (target : URL) : @Endpoint KfDef httpError Dyn TErr World :=
  NewErroringLimiter (rate_Allow pf l) (httpClient pf "POST" target).

(** What both methods do once a call has come back for good with error
    [permErr] and response [resp]. *)
Definition respond (rt : @Runtime KfDef httpError Dyn TErr World)
    (r : (option (@error httpError TErr) * outcome) * World)
  : @Result KfDef httpError TErr * World :=
  let '((permErr, (resp, _)), w1) := r in
  match permErr with
  | Some e => ((None, Some e), w1)
  | None =>
      let '(response, ok) := assert_KfDefPtr resp in
      if ok then ((response, None), w1)
      else
        let w2 := logEntry rt InfoLevel "Response is not type *KfDef" w1 in
        let '(resErr, ok) := assert_httpErrorPtr resp in
        if ok then ((None, Some (EhttpErrorPtr resErr)), w2)
        else
          let w3 :=
            logEntry rt InfoLevel "Response is not type *httpError" w2 in
          let '(pRes, _) := Pformat rt resp in
          let w4 := logEntry rt ErrorLevel (unexpected ++ pRes) w3 in
          ((None, Some (Errorf (unexpected ++ pRes))), w4)
  end.

End Observing.

(** ** [net/url]: the scheme of an address *)

Definition isLetter (c : ascii) : bool :=
  (Ascii.leb "a"%char c && Ascii.leb c "z"%char) || (Ascii.leb "A"%char c && Ascii.leb c "Z"%char).

Definition isSchemeMark (c : ascii) : bool :=
  (Ascii.leb "0"%char c && Ascii.leb c "9"%char)
  || Ascii.eqb c "+"%char || Ascii.eqb c "-"%char || Ascii.eqb c "."%char.

(** [getScheme] of [net/url]: the scheme is what stands before the first
    colon, if that is a letter followed by letters, digits, [+], [-] and
    [.]; [s] is what is left of [rawURL] at index [i]. *)
Fixpoint getScheme_at (i : nat) (s rawURL : string)
  : (string * string) + string :=
  match s with
  | EmptyString => inl (EmptyString, rawURL)
  | String c s' =>
      if isLetter c then getScheme_at (S i) s' rawURL
      else if isSchemeMark c then
        if Nat.eqb i 0 then inl (EmptyString, rawURL)
        else getScheme_at (S i) s' rawURL
      else if Ascii.eqb c ":"%char then
        if Nat.eqb i 0 then inr "missing protocol scheme"%string
        else inl (substring 0 i rawURL, s')
      else inl (EmptyString, rawURL)
  end.

Definition getScheme (rawURL : string) : (string * string) + string :=
  getScheme_at 0 rawURL rawURL.

Definition hasScheme (rawURL : string) : bool :=
  match getScheme rawURL with
  | inl (scheme, _) => negb (String.eqb scheme EmptyString)
  | inr _ => false
  end.

(** ** A simulated deployment

    Concrete surroundings to run the client in: a remote service that
    answers from a script, token buckets on a heap, a clock. *)

Module Sim.

Definition KfDef := string.
Definition httpError := string.

Abbreviation value := (@iface KfDef httpError string).
Abbreviation err := (@error httpError string).
Abbreviation obs := (@Obs KfDef httpError string string string nat).

Record World : Type := {
  script : list (value * option err);
  buckets : list nat;
  clock : N;
  journal : list string
}.

(** The context [k] is closed once the clock has reached [k]. *)
Definition rt : @Runtime KfDef httpError string string World :=
  {| timerWait := fun d w =>
       {| script := script w; buckets := buckets w;
          clock := (clock w + Z.to_N d)%N; journal := journal w |};
     ctxClosed := fun k w => (N.of_nat k <=? clock w)%N;
     logEntry := fun _ s w =>
       {| script := script w; buckets := buckets w;
          clock := clock w; journal := journal w ++ [s] |};
     Pformat := fun raw =>
       match raw with
       | INil => ("<nil>"%string, None)
       | IKfDef v => (v, None)
       | IKfDefPtr (Some v) => (("&" ++ v)%string, None)
       | IKfDefPtr None => ("<nil>"%string, None)
       | IhttpErrorPtr (Some v) => (("&" ++ v)%string, None)
       | IhttpErrorPtr None => ("<nil>"%string, None)
       | IDyn v => (v, None)
       end |}.

Definition hasSpace (s : string) : bool :=
  existsb (Ascii.eqb " "%char) (list_ascii_of_string s).

(** One round trip: a closed context fails the call; otherwise the remote
    service gives the next answer of its script, and refuses the connection
    when the script is over. *)
Definition roundTrip (ctx : Context) (w : World) : (value * option err) * World :=
  if Done rt ctx w then ((INil, Some (TransportError "context canceled"%string)), w)
  else
    match script w with
    | [] => ((INil, Some (TransportError "connection refused"%string)), w)
    | o :: rest =>
        (o, {| script := rest; buckets := buckets w;
               clock := clock w; journal := journal w |})
    end.

(** A limiter is the index of its bucket; buckets are never refilled. *)
Definition pf : @Platform KfDef httpError string string string nat World :=
  {| url_Parse := fun s =>
       if hasSpace s then inr (Errorf "invalid character in host name")
       else inl s;
     copyURL := fun base path => (base ++ path)%string;
     KfctlCreatePath := "/kfctl/apps/v1alpha2/create"%string;
     rate_NewLimiter := fun _ b w =>
       (length (buckets w),
        {| script := script w; buckets := buckets w ++ [Z.to_nat b];
           clock := clock w; journal := journal w |});
     rate_Allow := fun l w =>
       match buckets w !! l with
       | Some (S n) =>
           (true, {| script := script w; buckets := <[l := n]> (buckets w);
                     clock := clock w; journal := journal w |})
       | _ => (false, w)
       end;
     httpClient := fun _ _ ctx _ w => roundTrip ctx w |}.

(** The same platform with a limiter that admits nothing. *)
Definition shut : @Platform KfDef httpError string string string nat World :=
  {| url_Parse := url_Parse pf;
     copyURL := copyURL pf;
     KfctlCreatePath := KfctlCreatePath pf;
     rate_NewLimiter := rate_NewLimiter pf;
     rate_Allow := fun _ w => (false, w);
     httpClient := httpClient pf |}.

Definition start (answers : list (value * option err)) : World :=
  {| script := answers; buckets := []; clock := 0%N; journal := [] |}.

(** Remote services: one that is ready, one that is down, one that answers
    with a nil pointer. *)
Definition ready : World := start [(IKfDefPtr (Some "d1 ready"%string), None)].
Definition down : World := start [].
Definition nilAnswer : World := start [(IKfDefPtr None, None)].
Definition odd : World := start [(IDyn "42"%string, None)].

(** A world whose only limiter, at index 0, has no token left. *)
Definition drained : World :=
  {| script := []; buckets := [O]; clock := 0%N; journal := [] |}.

(** A client whose endpoints answer from the script, without a limiter. *)
Definition scripted : @KfctlClient KfDef httpError string string World :=
  {| createEndpoint := fun ctx _ w => roundTrip ctx w;
     getEndpoint := fun ctx _ w => roundTrip ctx w |}.

Definition watchRt : @Runtime KfDef httpError string string (World * list obs) :=
  spyRuntime rt.

Definition watch (c : @KfctlClient KfDef httpError string string World)
  : @KfctlClient KfDef httpError string string (World * list obs) :=
  spyClient c.

(** [CreateDeployment] on the client that [NewKfctlClient] builds for
    [instance] over the observed platform. *)
Definition createAt (fuel : nat) (ctx : Context) (instance : string)
    (w : World) : option (@Result KfDef httpError string * (World * list obs)) :=
  match NewKfctlClient (spyPlatform pf) instance (w, []) with
  | ((Some c, _), w1) => CreateDeployment watchRt fuel c ctx "deployment"%string w1
  | ((None, _), _) => None
  end.

Definition notebook
    (r : option (@Result KfDef httpError string * (World * list obs)))
  : list obs :=
  match r with
  | Some (_, (_, log)) => log
  | None => []
  end.

End Sim.

(** ** Following a run more closely *)

Section Following.

Context {KfDef httpError Dyn TErr : Type}.
Context {World : Type}.

(** The world in which attempt number [n] (counted from 0) of a retried
    call is made, if the attempts before it failed: each of them is followed
    by a pause of [d]. *)
Fixpoint worldAt (rt : @Runtime KfDef httpError Dyn TErr World)
    (ep : @Endpoint KfDef httpError Dyn TErr World) (ctx : Context)
    (req : @iface KfDef httpError Dyn) (d : Duration) (n : nat) (w : World)
  : World :=
  match n with
  | O => w
  | S n' => worldAt rt ep ctx req d n' (timerWait rt d (snd (ep ctx req w)))
  end.

(** What attempt number [n] comes back with. *)
Definition outcomeAt (rt : @Runtime KfDef httpError Dyn TErr World)
    (ep : @Endpoint KfDef httpError Dyn TErr World) (ctx : Context)
    (req : @iface KfDef httpError Dyn) (d : Duration) (n : nat) (w : World)
  : @iface KfDef httpError Dyn * option (@error httpError TErr) :=
  fst (ep ctx req (worldAt rt ep ctx req d n w)).

(** The answers of a policy to [n] calls of [NextBackOff] in a row. *)
Fixpoint pauses (n : nat) (b : BackOff) : list Duration :=
  match n with
  | O => []
  | S n' => let '(d, b') := NextBackOff b in d :: pauses n' b'
  end.






(** A tape of what is handed to an endpoint: the context and the request of
    each call. *)
Definition Tape : Type := list (Context * @iface KfDef httpError Dyn).

Definition tapeRuntime (rt : @Runtime KfDef httpError Dyn TErr World)
  : @Runtime KfDef httpError Dyn TErr (World * Tape) :=
  {| timerWait := fun d '(w, t) => (timerWait rt d w, t);
     ctxClosed := fun k '(w, _) => ctxClosed rt k w;
     logEntry := fun lv s '(w, t) => (logEntry rt lv s w, t);
     Pformat := Pformat rt |}.

Definition tapeEndpoint (ep : @Endpoint KfDef httpError Dyn TErr World)
  : @Endpoint KfDef httpError Dyn TErr (World * Tape) :=
  fun ctx req '(w, t) =>
    let '(r, w') := ep ctx req w in (r, (w', t ++ [(ctx, req)])).

Definition tapeClient (c : @KfctlClient KfDef httpError Dyn TErr World)
  : @KfctlClient KfDef httpError Dyn TErr (World * Tape) :=
  {| createEndpoint := tapeEndpoint (createEndpoint c);
     getEndpoint := tapeEndpoint (getEndpoint c) |}.

(** The same runtime with another account of which contexts are closed. *)
Definition withClosed (rt : @Runtime KfDef httpError Dyn TErr World)
    (closed : nat -> World -> bool) : @Runtime KfDef httpError Dyn TErr World :=
  {| timerWait := timerWait rt;
     ctxClosed := closed;
     logEntry := logEntry rt;
     Pformat := Pformat rt |}.

End Following.

(** More of the simulated deployment: a remote service that fails twice
    before it answers, one that answers with a quota error, one whose first
    answer is a permanent error, and a client whose endpoints pay no
    attention to the context. *)
Module SimMore.

Definition flaky : Sim.World :=
  Sim.start [(INil, Some (TransportError "EOF"%string));
             (INil, Some (TransportError "EOF"%string));
             (IKfDefPtr (Some "d1 ready"%string), None)].



Definition deaf : @KfctlClient Sim.KfDef Sim.httpError string string Sim.World :=
  {| createEndpoint := fun _ _ w => Sim.roundTrip Background w;
     getEndpoint := fun _ _ w => Sim.roundTrip Background w |}.

End SimMore.

(** * Properties *)

Section RetryFacts.

Context {KfDef httpError Dyn TErr World : Type}.
Variable rt : @Runtime KfDef httpError Dyn TErr World.

Lemma Done_Background (w : World) : Done rt Background w = false.
Proof. reflexivity. Qed.

Lemma uint64_small (z : Z) : (0 <= z < 2 ^ 64)%Z -> uint64 z = z.
Proof. intros H. unfold uint64. now apply Z.mod_small. Qed.

(** With [numTries = n] on a policy of at most 30 retries, the library
    loop is the bounded loop with the [30 - n] retries that are left. *)
Lemma retryLoop_backOffTries {V : Type} (op : Operation V) (d : Duration) :
  d <> Stop ->
  forall (k : nat) (n : Z) (fuel : nat) (v : V) (w : World),
    (n + Z.of_nat k = 30)%Z -> (0 <= n)%Z -> k < fuel ->
    retryLoop rt fuel op Background (backOffTries (ConstantBackOff d) 30 n) v w
    = Some (attempts rt op d k v w).
Proof.
  intros Hd. induction k as [|k IH]; intros n fuel v w Hn Hn0 Hf;
    (destruct fuel as [|fuel]; [lia|]); cbn [retryLoop attempts];
    destruct (op v w) as [[[e|] v1] w1]; try reflexivity;
    destruct (assert_PermanentError e) as [Err [|]]; try reflexivity;
    cbn [Done NextBackOff].
  - assert (n = 30%Z) as -> by lia. reflexivity.
  - replace (0 <? 30)%Z with true by reflexivity.
    destruct (Z.leb_spec 30 n) as [Hle|Hlt]; [lia|].
    destruct (Z.eqb_spec d Stop) as [->|_]; [congruence|].
    rewrite uint64_small by lia.
    apply IH; lia.
Qed.

Lemma Retry_attempts {V : Type} (op : Operation V) (fuel : nat) (v : V)
    (w : World) :
  31 <= fuel ->
  Retry rt fuel op (WithMaxRetries (NewConstantBackOff (2 * time.Second)%Z) 30)
        v w
  = Some (attempts rt op (2 * time.Second)%Z 30 v w).
Proof.
  intros Hf. unfold Retry, ensureContext, WithMaxRetries, NewConstantBackOff.
  cbn [Reset]. apply retryLoop_backOffTries; [discriminate | lia | lia | lia].
Qed.

Lemma CreateDeployment_respond (c : KfctlClient) (ctx : Context)
    (req : KfDef) (w : World) (fuel : nat) :
  CreateDeployment rt fuel c ctx req w
  = option_map (respond rt)
      (Retry rt fuel (createOp (createEndpoint c) ctx req)
             (WithMaxRetries (NewConstantBackOff (2 * time.Second)%Z) 30)
             (INil, None) w).
Proof.
  unfold CreateDeployment, option_map, respond, createOp.
  destruct (Retry _ _ _ _ _ _) as [[[permErr [resp e]] w1]|]; reflexivity.
Qed.

Lemma GetLatestKfdef_respond (c : KfctlClient) (req : KfDef) (w : World) :
  GetLatestKfdef rt c req w
  = respond rt
      ((snd (fst (getEndpoint c Background (IKfDef req) w)),
        fst (getEndpoint c Background (IKfDef req) w)),
       snd (getEndpoint c Background (IKfDef req) w)).
Proof.
  unfold GetLatestKfdef, respond.
  now destruct (getEndpoint c Background (IKfDef req) w) as [[resp [e|]] w1].
Qed.

End RetryFacts.

Section RunFacts.

Context {KfDef httpError Dyn TErr URL Limiter World : Type}.
Variable rt : @Runtime KfDef httpError Dyn TErr World.

Local Abbreviation iface' := (@iface KfDef httpError Dyn).
Local Abbreviation error' := (@error httpError TErr).
Local Abbreviation Endpoint' := (@Endpoint KfDef httpError Dyn TErr World).
Local Abbreviation Obs' := (@Obs KfDef httpError Dyn TErr URL Limiter).
Local Abbreviation outcome' := (@outcome KfDef httpError Dyn TErr).
Local Abbreviation spyRt := (@spyRuntime KfDef httpError Dyn TErr URL Limiter World rt).
Local Abbreviation spyEp := (@spyEndpoint KfDef httpError Dyn TErr URL Limiter World).
Local Abbreviation spyCl := (@spyClient KfDef httpError Dyn TErr URL Limiter World).

Lemma retryTrace_cons (d : Duration) (o : outcome') os last :
  retryTrace (URL:=URL) (Limiter:=Limiter) d (o :: os ++ [last])
  = ObsCall (fst o) (snd o) :: ObsWait d :: retryTrace d (os ++ [last]).
Proof. cbn [retryTrace]. destruct os; reflexivity. Qed.

Lemma callsOf_retryTrace (d : Duration) (os : list outcome') :
  callsOf (retryTrace (URL:=URL) (Limiter:=Limiter) d os) = os.
Proof.
  induction os as [|[r e] os IH]; [reflexivity|].
  cbn [retryTrace]. destruct os as [|o' os]; [reflexivity|].
  cbn [callsOf fst snd]. now rewrite IH.
Qed.

Lemma waitsOf_retryTrace (d : Duration) (os : list outcome') :
  waitsOf (retryTrace (URL:=URL) (Limiter:=Limiter) d os)
  = repeat d (length os - 1).
Proof.
  induction os as [|[r e] os IH]; [reflexivity|].
  cbn [retryTrace]. destruct os as [|o' os]; [reflexivity|].
  cbn [waitsOf]. rewrite IH. simpl. now rewrite Nat.sub_0_r.
Qed.

Lemma createOp_eq (ep : Endpoint') (ctx : Context) (req : KfDef)
    (v : iface' * option error') (w : World) :
  createOp ep ctx req v w
  = ((snd (fst (ep ctx (IKfDef req) w)), fst (ep ctx (IKfDef req) w)),
     snd (ep ctx (IKfDef req) w)).
Proof.
  unfold createOp. now destruct (ep ctx (IKfDef req) w) as [[resp err] w'].
Qed.

Lemma createOp_spied (ep : Endpoint') (ctx : Context) (req : KfDef)
    (v : iface' * option error') (w : World) (l : list Obs') :
  createOp (spyEp ep) ctx req v (w, l)
  = ((snd (fst (ep ctx (IKfDef req) w)), fst (ep ctx (IKfDef req) w)),
     (snd (ep ctx (IKfDef req) w),
      l ++ [ObsCall (fst (fst (ep ctx (IKfDef req) w)))
                    (snd (fst (ep ctx (IKfDef req) w)))])).
Proof.
  unfold createOp, spyEndpoint.
  now destruct (ep ctx (IKfDef req) w) as [[resp err] w'].
Qed.

Lemma retryable_inv (o : outcome') :
  retryable o ->
  exists e, snd o = Some e /\ assert_PermanentError e = (None, false)
            /\ unwrap (snd o) = Some e.
Proof.
  unfold retryable, retryableb, unwrap. destruct o as [r [e|]]; cbn [snd];
    [|discriminate].
  intros H. exists e. destruct e; try discriminate; repeat split.
Qed.

Lemma retryable_failed (o : outcome') : retryable o -> failed o.
Proof. intros (e & H & _)%retryable_inv. unfold failed. congruence. Qed.

Lemma retryable_dec (o : outcome') : {retryable o} + {~ retryable o}.
Proof.
  unfold retryable. destruct (retryableb o); [now left | right; discriminate].
Qed.

(** The bounded loop, followed call by call: if the attempts before number
    [n] can be retried, and attempt [n] cannot or is the last one allowed,
    the loop ends with attempt [n]. *)
Lemma attempts_stops_at (ep : Endpoint') (ctx : Context) (req : KfDef)
    (d : Duration) :
  forall (n k : nat) (v v' : iface' * option error') (w : World)
         (l : list Obs'),
    n <= k ->
    (forall i, i < n -> retryable (outcomeAt rt ep ctx (IKfDef req) d i w)) ->
    (n = k \/ ~ retryable (outcomeAt rt ep ctx (IKfDef req) d n w)) ->
    attempts spyRt (createOp (spyEp ep) ctx req) d k v (w, l)
    = ((unwrap (snd (outcomeAt rt ep ctx (IKfDef req) d n w)),
        outcomeAt rt ep ctx (IKfDef req) d n w),
       (snd (ep ctx (IKfDef req) (worldAt rt ep ctx (IKfDef req) d n w)),
        l ++ retryTrace d
               (map (fun i => outcomeAt rt ep ctx (IKfDef req) d i w)
                    (seq 0 n)
                ++ [outcomeAt rt ep ctx (IKfDef req) d n w])))
    /\ attempts rt (createOp ep ctx req) d k v' w
       = ((unwrap (snd (outcomeAt rt ep ctx (IKfDef req) d n w)),
           outcomeAt rt ep ctx (IKfDef req) d n w),
          snd (ep ctx (IKfDef req) (worldAt rt ep ctx (IKfDef req) d n w))).
Proof.
  induction n as [|n IH]; intros k v v' w l Hk Hpre Hend.
  - unfold outcomeAt in *. cbn [worldAt seq map app] in *.
    destruct (ep ctx (IKfDef req) w) as [[resp [e|]] w1] eqn:Hep.
    + destruct (retryable_dec (resp, Some e)) as [Hr|Hn].
      * destruct Hend as [<-|Hend]; [|now elim Hend].
        destruct (retryable_inv Hr) as (e' & He' & Hnp & Hun).
        cbn [snd] in He'. injection He' as <-.
        cbn [attempts]. rewrite createOp_spied, createOp_eq, Hep.
        cbn [fst snd] in *. rewrite Hnp, Hun. split; reflexivity.
      * assert (Hp : snd (assert_PermanentError e) = true).
        { unfold retryable, retryableb in Hn. cbn [snd] in Hn.
          now destruct (snd (assert_PermanentError e)). }
        destruct k; cbn [attempts]; rewrite createOp_spied, createOp_eq, Hep;
          cbn [fst snd unwrap retryTrace];
          destruct (assert_PermanentError e) as [Err ok];
          cbn [snd] in Hp; subst ok; split; reflexivity.
    + destruct k; cbn [attempts]; rewrite createOp_spied, createOp_eq, Hep;
        split; reflexivity.
  - destruct k as [|k]; [lia|].
    pose proof (Hpre 0 (Nat.lt_0_succ n)) as H0.
    unfold outcomeAt in H0. cbn [worldAt] in H0.
    destruct (retryable_inv H0) as (e & He & Hnp & _).
    cbn [attempts]. rewrite createOp_spied, createOp_eq.
    destruct (ep ctx (IKfDef req) w) as [[r0 eo] w0] eqn:Hep.
    cbn [fst snd] in He |- *. subst eo. rewrite Hnp.
    cbn [timerWait spyRuntime].
    destruct (IH k (r0, Some e) (r0, Some e) (timerWait rt d w0)
                 ((l ++ [ObsCall r0 (Some e)]) ++ [ObsWait d]))
      as [Hs Hu].
    + lia.
    + intros i Hi. specialize (Hpre (S i)). unfold outcomeAt in *.
      cbn [worldAt] in Hpre. rewrite Hep in Hpre. apply Hpre. lia.
    + destruct Hend as [Hend|Hend]; [left; lia | right].
      unfold outcomeAt in *. cbn [worldAt] in Hend. now rewrite Hep in Hend.
    + unfold outcomeAt in *. cbn [worldAt]. rewrite Hep. cbn [snd].
      split; [|exact Hu]. rewrite Hs. f_equal. f_equal.
      cbn [seq map app worldAt]. rewrite Hep. cbn [snd fst].
      rewrite <- seq_shift, map_map. cbn [worldAt]. rewrite Hep. cbn [snd].
      match goal with
      | |- _ = _ ++ retryTrace _ (?o :: ?os ++ [?la]) =>
          pose proof (retryTrace_cons d o os la) as E
      end.
      etransitivity; [|apply (f_equal (app l)); symmetry; exact E].
      cbn [fst snd]. now rewrite <- !app_assoc.
Qed.

(** There is such an attempt among the first [k + 1]. *)
Lemma stop_exists (ep : Endpoint') (ctx : Context) (req : iface')
    (d : Duration) (w : World) (k : nat) :
  exists n,
    n <= k
    /\ (forall i, i < n -> retryable (outcomeAt rt ep ctx req d i w))
    /\ (n = k \/ ~ retryable (outcomeAt rt ep ctx req d n w)).
Proof.
  induction k as [|k (n & Hn & Hpre & Hend)].
  - exists 0. split; [lia|]. split; [intros i Hi; lia | now left].
  - destruct (retryable_dec (outcomeAt rt ep ctx req d n w)) as [Hr|Hnr].
    + destruct Hend as [->|Hend]; [|now elim Hend].
      exists (S k). split; [lia|]. split; [|now left].
      intros i Hi. destruct (Nat.eq_dec i k) as [->|Hne]; [exact Hr|].
      apply Hpre. lia.
    + exists n. split; [lia|]. split; [exact Hpre | now right].
Qed.

Lemma respond_finish (o : outcome') (w : World) :
  fst (respond rt ((snd o, o), w)) = finish rt o.
Proof.
  destruct o as [resp [e|]]; [reflexivity|].
  unfold respond, finish, Classify, ClassifyBy, successShape, errorShape.
  cbn [fst snd]. destruct resp; cbn; try reflexivity;
    now destruct (Pformat rt _).
Qed.

Lemma respond_settled (o : outcome') (w : World) :
  fst (respond rt ((unwrap (snd o), o), w)) = finish rt (settle o).
Proof.
  destruct o as [resp e]. unfold settle. cbn [fst snd].
  destruct (unwrap e) as [e'|]; [reflexivity|].
  unfold respond, finish, Classify, ClassifyBy, successShape, errorShape.
  cbn [fst snd]. destruct resp; cbn; try reflexivity;
    now destruct (Pformat rt _).
Qed.

Lemma respond_spied (x : option error' * outcome') (w : World)
    (l : list Obs') :
  respond spyRt (x, (w, l))
  = (fst (respond rt (x, w)), (snd (respond rt (x, w)), l)).
Proof.
  destruct x as [[e|] [resp e']]; [reflexivity|].
  unfold respond. destruct resp; cbn; try reflexivity;
    now destruct (Pformat rt _).
Qed.

(** A run of [CreateDeployment] under observation, call by call: if the
    attempts before number [n] can be retried, and attempt [n] cannot or is
    number 30 (the 31st), the run ends with attempt [n] and returns what the
    unobserved run returns; the notebook holds what the attempts came back
    with, in order, with a pause of two seconds between each two. *)
Lemma CreateDeployment_stops_at (c : KfctlClient) (ctx : Context)
    (req : KfDef) (w : World) (l : list Obs') (fuel n : nat) :
  31 <= fuel ->
  n <= 30 ->
  (forall i, i < n ->
     retryable (outcomeAt rt (createEndpoint c) ctx (IKfDef req)
                          2000000000%Z i w)) ->
  (n = 30
   \/ ~ retryable (outcomeAt rt (createEndpoint c) ctx (IKfDef req)
                             2000000000%Z n w)) ->
  exists (w' : World),
    CreateDeployment spyRt fuel (spyCl c) ctx req (w, l)
    = Some (finish rt (settle (outcomeAt rt (createEndpoint c) ctx
                                         (IKfDef req) 2000000000%Z n w)),
            (w', l ++ retryTrace 2000000000%Z
                        (map (fun i => outcomeAt rt (createEndpoint c) ctx
                                         (IKfDef req) 2000000000%Z i w)
                             (seq 0 n)
                         ++ [outcomeAt rt (createEndpoint c) ctx
                                       (IKfDef req) 2000000000%Z n w])))
    /\ CreateDeployment rt fuel c ctx req w
       = Some (finish rt (settle (outcomeAt rt (createEndpoint c) ctx
                                            (IKfDef req) 2000000000%Z n w)),
               w')
    /\ (snd (settle (outcomeAt rt (createEndpoint c) ctx (IKfDef req)
                               2000000000%Z n w)) <> None
        \/ (exists p, fst (outcomeAt rt (createEndpoint c) ctx (IKfDef req)
                                     2000000000%Z n w) = IKfDefPtr p) ->
        w' = snd (createEndpoint c ctx (IKfDef req)
                    (worldAt rt (createEndpoint c) ctx (IKfDef req)
                             2000000000%Z n w))).
Proof.
  intros Hf Hn Hpre Hend.
  rewrite (CreateDeployment_respond spyRt), (CreateDeployment_respond rt).
  rewrite (Retry_attempts spyRt), (Retry_attempts rt) by exact Hf.
  cbn [createEndpoint spyClient option_map].
  destruct (attempts_stops_at (createEndpoint c) ctx req 2000000000%Z
              (INil, None) (INil, None) w l Hn Hpre Hend) as [Hs Hu].
  set (o := outcomeAt rt (createEndpoint c) ctx (IKfDef req)
                      2000000000%Z n w) in *.
  set (wn := snd (createEndpoint c ctx (IKfDef req)
                    (worldAt rt (createEndpoint c) ctx (IKfDef req)
                             2000000000%Z n w))) in *.
  exists (snd (respond rt ((unwrap (snd o), o), wn))).
  split; [|split].
  - refine (f_equal Some _).
    etransitivity; [exact (f_equal (respond spyRt) Hs)|].
    etransitivity; [exact (respond_spied (unwrap (snd o), o) wn _)|].
    exact (f_equal2 pair (respond_settled o wn) eq_refl).
  - refine (f_equal Some _).
    etransitivity; [exact (f_equal (respond rt) Hu)|].
    etransitivity; [apply surjective_pairing|].
    exact (f_equal2 pair (respond_settled o wn) eq_refl).
  - destruct o as [resp e]. unfold settle. cbn [fst snd].
    intros [He|[p ->]].
    + destruct (unwrap e); [reflexivity | now elim He].
    + destruct (unwrap e); reflexivity.
Qed.

Lemma CreateDeployment_stops (c : KfctlClient) (ctx : Context) (req : KfDef)
    (w : World) (l : list Obs') (fuel : nat) :
  31 <= fuel ->
  exists (n : nat) (w' : World),
    n <= 30
    /\ (forall i, i < n ->
          retryable (outcomeAt rt (createEndpoint c) ctx (IKfDef req)
                               2000000000%Z i w))
    /\ (n = 30
        \/ ~ retryable (outcomeAt rt (createEndpoint c) ctx (IKfDef req)
                                  2000000000%Z n w))
    /\ CreateDeployment spyRt fuel (spyCl c) ctx req (w, l)
       = Some (finish rt (settle (outcomeAt rt (createEndpoint c) ctx
                                            (IKfDef req) 2000000000%Z n w)),
               (w', l ++ retryTrace 2000000000%Z
                           (map (fun i => outcomeAt rt (createEndpoint c) ctx
                                            (IKfDef req) 2000000000%Z i w)
                                (seq 0 n)
                            ++ [outcomeAt rt (createEndpoint c) ctx
                                          (IKfDef req) 2000000000%Z n w])))
    /\ CreateDeployment rt fuel c ctx req w
       = Some (finish rt (settle (outcomeAt rt (createEndpoint c) ctx
                                            (IKfDef req) 2000000000%Z n w)),
               w').
Proof.
  intros Hf.
  destruct (stop_exists (createEndpoint c) ctx (IKfDef req) 2000000000%Z w 30)
    as (n & Hn & Hpre & Hend).
  destruct (CreateDeployment_stops_at c ctx req w l Hf Hn Hpre Hend)
    as (w' & Hs & Hu & _).
  exists n, w'. repeat split; auto.
Qed.

(** The same run, with the attempts that were retried set apart from the
    last one. *)
Lemma CreateDeployment_run (c : KfctlClient) (ctx : Context) (req : KfDef)
    (w : World) (l : list Obs') (fuel : nat) :
  31 <= fuel ->
  exists (os : list outcome') (last : outcome') (w' : World),
    CreateDeployment spyRt fuel (spyCl c) ctx req (w, l)
    = Some (finish rt (settle last),
            (w', l ++ retryTrace (2 * time.Second)%Z (os ++ [last])))
    /\ CreateDeployment rt fuel c ctx req w = Some (finish rt (settle last), w')
    /\ Forall retryable os
    /\ length os <= 30
    /\ (retryable last -> length os = 30)
    /\ Forall (fun o => exists w0,
                 fst (createEndpoint c ctx (IKfDef req) w0) = o)
              (os ++ [last]).
Proof.
  intros Hf.
  destruct (CreateDeployment_stops c ctx req w l Hf)
    as (n & w' & Hn & Hpre & Hend & Hs & Hu).
  eexists _, _, w'. split; [exact Hs|]. split; [exact Hu|].
  split; [|split; [|split]].
  - apply List.Forall_forall. intros o (i & <- & Hi)%in_map_iff.
    apply in_seq in Hi. apply Hpre. lia.
  - rewrite length_map, length_seq. exact Hn.
  - intros Hr. rewrite length_map, length_seq.
    destruct Hend as [Hend|Hend]; [exact Hend | now elim Hend].
  - apply Forall_app. split.
    + apply List.Forall_forall. intros o (i & <- & _)%in_map_iff.
      unfold outcomeAt. eauto.
    + constructor; [|constructor]. unfold outcomeAt. eauto.
Qed.

(** A first call that comes back without an error is the only one. *)
Lemma CreateDeployment_first_try (c : KfctlClient) (ctx : Context)
    (req : KfDef) (w w1 : World) (resp : iface') (fuel : nat) :
  createEndpoint c ctx (IKfDef req) w = ((resp, None), w1) ->
  CreateDeployment rt (S fuel) c ctx req w
  = Some (respond rt ((None, (resp, None)), w1)).
Proof.
  intros Hep. rewrite CreateDeployment_respond.
  unfold Retry, ensureContext. cbn [retryLoop].
  rewrite createOp_eq, Hep. reflexivity.
Qed.

(** [GetLatestKfdef] under observation: one call, no pause. *)
Lemma GetLatestKfdef_run (c : KfctlClient) (req : KfDef) (w : World)
    (l : list Obs') :
  exists (o : outcome') (w1 w' : World),
    getEndpoint c Background (IKfDef req) w = (o, w1)
    /\ GetLatestKfdef spyRt (spyCl c) req (w, l)
       = (finish rt o, (w', l ++ [ObsCall (fst o) (snd o)]))
    /\ GetLatestKfdef rt c req w = (finish rt o, w')
    /\ (failed o -> w' = w1).
Proof.
  rewrite (GetLatestKfdef_respond spyRt), (GetLatestKfdef_respond rt).
  cbn [getEndpoint spyClient]. unfold spyEndpoint.
  destruct (getEndpoint c Background (IKfDef req) w) as [[resp e] w1].
  exists (resp, e), w1, (snd (respond rt ((e, (resp, e)), w1))).
  cbn [fst snd]. rewrite respond_spied.
  destruct e as [e|]; [now repeat split|].
  unfold respond, finish, Classify, ClassifyBy, successShape, errorShape.
  destruct resp; cbn; try destruct (Pformat rt _); repeat split;
    intros H; now elim H.
Qed.

End RunFacts.

Section Built.

Context {KfDef httpError Dyn TErr URL Limiter World : Type}.

Local Abbreviation Platform' :=
  (@Platform KfDef httpError Dyn TErr URL Limiter World).
Local Abbreviation Obs' := (@Obs KfDef httpError Dyn TErr URL Limiter).

Variable pf : Platform'.

Lemma NewKfctlClient_built (instance : string) (w w1 : World) (u : URL)
    (l : Limiter) :
  url_Parse pf (sanitize instance) = inl u ->
  rate_NewLimiter pf (Every time.Second) 100 w = (l, w1) ->
  NewKfctlClient pf instance w
  = ((Some {| createEndpoint :=
                limitedPost pf l (copyURL pf u (KfctlCreatePath pf));
              getEndpoint :=
                limitedPost pf l (copyURL pf u (KfctlCreatePath pf)) |},
      None), w1).
Proof.
  intros Hu Hl. unfold NewKfctlClient. now rewrite Hu, Hl.
Qed.

Lemma NewKfctlClient_failed (instance : string) (w : World)
    (e : @error httpError TErr) :
  url_Parse pf (sanitize instance) = inr e ->
  NewKfctlClient pf instance w = ((None, Some e), w).
Proof.
  intros Hu. unfold NewKfctlClient. now rewrite Hu.
Qed.

Lemma limitedPost_eq (l : Limiter) (tgt : URL) (ctx : Context)
    (req : @iface KfDef httpError Dyn) (w : World) :
  limitedPost pf l tgt ctx req w
  = if fst (rate_Allow pf l w)
    then httpClient pf "POST" tgt ctx req (snd (rate_Allow pf l w))
    else ((INil, Some ErrLimited), snd (rate_Allow pf l w)).
Proof.
  unfold limitedPost, NewErroringLimiter.
  now destruct (rate_Allow pf l w) as [[|] w'].
Qed.

(** The same endpoint over the observed platform: the notebook gains the
    question to the limiter and, only if it was admitted, the round trip. *)
Lemma limitedPost_spied (l : Limiter) (tgt : URL) (ctx : Context)
    (req : @iface KfDef httpError Dyn) (w : World) (lg : list Obs') :
  limitedPost (spyPlatform pf) l tgt ctx req (w, lg)
  = (fst (limitedPost pf l tgt ctx req w),
     (snd (limitedPost pf l tgt ctx req w),
      lg ++ (if fst (rate_Allow pf l w)
             then [ObsAllow l true; ObsHTTP "POST" tgt]
             else [ObsAllow l false]))).
Proof.
  unfold limitedPost, NewErroringLimiter. cbn [rate_Allow httpClient spyPlatform].
  destruct (rate_Allow pf l w) as [[|] w']; cbn [negb fst snd]; [|reflexivity].
  destruct (httpClient pf "POST" tgt ctx req w') as [r w2]. cbn [fst snd].
  now rewrite <- app_assoc.
Qed.

Lemma Forall_eq_repeat {A : Type} (x : A) (l : list A) :
  Forall (eq x) l -> l = repeat x (length l).
Proof.
  induction 1 as [|y l <- _ IH]; [reflexivity|]. cbn. now rewrite <- IH.
Qed.

End Built.

Section Agreement.

Context {KfDef httpError Dyn TErr World : Type}.

Local Abbreviation Runtime' := (@Runtime KfDef httpError Dyn TErr World).
Local Abbreviation Client' := (@KfctlClient KfDef httpError Dyn TErr World).

Lemma retryLoop_agree {V : Type} (rt1 rt2 : Runtime')
    (op1 op2 : @Operation httpError TErr World V) :
  (forall d w, timerWait rt1 d w = timerWait rt2 d w) ->
  (forall v w, op1 v w = op2 v w) ->
  forall (fuel : nat) (b : BackOff) (v : V) (w : World),
    retryLoop rt1 fuel op1 Background b v w
    = retryLoop rt2 fuel op2 Background b v w.
Proof.
  intros Htw Hop. induction fuel as [|fuel IH]; intros b v w; [reflexivity|].
  cbn [retryLoop Done]. rewrite Hop.
  destruct (op2 v w) as [[[e|] v1] w1]; [|reflexivity].
  destruct (assert_PermanentError e) as [Err [|]]; [reflexivity|].
  destruct (NextBackOff b) as [next b1].
  destruct (next =? Stop)%Z; [reflexivity|].
  rewrite Htw. apply IH.
Qed.

(** Two runs of [CreateDeployment] that differ in the context, and in
    which contexts are closed, agree if the endpoint treats the two contexts
    alike. *)
Lemma CreateDeployment_agree (rt : Runtime') (c : Client')
    (ctx1 ctx2 : Context) (closed : nat -> World -> bool) (req : KfDef)
    (w : World) (fuel : nat) :
  (forall rq w0, createEndpoint c ctx1 rq w0 = createEndpoint c ctx2 rq w0) ->
  CreateDeployment rt fuel c ctx1 req w
  = CreateDeployment (withClosed rt closed) fuel c ctx2 req w.
Proof.
  intros Hep.
  rewrite (CreateDeployment_respond rt),
    (CreateDeployment_respond (withClosed rt closed)).
  unfold Retry, ensureContext.
  rewrite (retryLoop_agree rt (withClosed rt closed)
             (createOp (createEndpoint c) ctx1 req)
             (createOp (createEndpoint c) ctx2 req)).
  - destruct (retryLoop _ _ _ _ _ _ _) as [[[pe [r e]] w1]|]; reflexivity.
  - reflexivity.
  - intros v w0. unfold createOp. now rewrite Hep.
Qed.

End Agreement.

(** * The claims *)

Section Claims.

Context {KfDef httpError Dyn TErr URL Limiter World : Type}.

Local Abbreviation iface' := (@iface KfDef httpError Dyn).
Local Abbreviation error' := (@error httpError TErr).
Local Abbreviation Runtime' := (@Runtime KfDef httpError Dyn TErr World).
Local Abbreviation Client' := (@KfctlClient KfDef httpError Dyn TErr World).
Local Abbreviation Platform' :=
  (@Platform KfDef httpError Dyn TErr URL Limiter World).
Local Abbreviation Obs' := (@Obs KfDef httpError Dyn TErr URL Limiter).
Local Abbreviation outcome' := (@outcome KfDef httpError Dyn TErr).
Local Abbreviation spyRt :=
  (@spyRuntime KfDef httpError Dyn TErr URL Limiter World).
Local Abbreviation spyCl :=
  (@spyClient KfDef httpError Dyn TErr URL Limiter World).

Lemma lookup_snoc_inv (os : list outcome') (last o : outcome') (i : nat) :
  (os ++ [last]) !! i = Some o ->
  (i < length os /\ os !! i = Some o) \/ (i = length os /\ o = last).
Proof.
  intros H. destruct (decide (i < length os)) as [Hlt|Hge].
  - left. split; [exact Hlt|]. now rewrite lookup_app_l in H.
  - right. rewrite lookup_app_r in H by lia.
    destruct (i - length os) as [|n] eqn:E; cbn in H; [|discriminate].
    split; [lia | congruence].
Qed.


Lemma map_seq_snoc (f : nat -> outcome') (n : nat) :
  map f (seq 0 n) ++ [f n] = map f (seq 0 (S n)).
Proof. now rewrite seq_S, map_app. Qed.

Lemma not_retryable_decoded (resp : iface') :
  ~ retryable ((resp, None) : outcome').
Proof. discriminate. Qed.


(** C2.  Classification is an exhaustive, ordered three-way branch: a
    response that is a pointer to a [KfDef] yields that pointer; otherwise a
    response that is a pointer to an [httpError] yields that error;
    otherwise the result is a generic error whose message is
    "Recieved unexpected response; " followed by the rendering of the raw
    value.  The success shape is tried first, so that it decides whatever the
    error shape says (in Go the two dynamic types exclude each other, so no
    value has both shapes).  [CreateDeployment] applies this mapping to the
    response of the attempt that ends its loop: if the attempts before
    number [n] come back with errors that are retried and attempt [n] comes
    back with a response and no error, it returns the classification of that
    response.  [GetLatestKfdef] applies the same mapping to the response of
    its call. *)
Theorem classification_three_way (rt : Runtime') (c : Client')
    (ctx : Context) (req : KfDef) (w : World) (fuel : nat) (resp : iface') :
  resultOf rt (Classify resp)
  = match resp with
    | IKfDefPtr p => (p, None)
    | IhttpErrorPtr p => (None, Some (EhttpErrorPtr p))
    | _ => (None,
            Some (Errorf ("Recieved unexpected response; "
                          ++ fst (Pformat rt resp))))
    end
  /\ (forall (Raw D E Out : Type) (success : Raw -> option D)
        (failure : Raw -> option E) (onSuccess : D -> Out)
        (onError : E -> Out) (otherwise : Raw -> Out) (raw : Raw) (d : D),
        success raw = Some d ->
        ClassifyBy success failure onSuccess onError otherwise raw
        = onSuccess d)
  /\ (forall p, successShape resp = Some p -> Classify resp = DomainResult p)
  /\ (successShape resp = None \/ errorShape resp = None)
  /\ (forall n w1,
        31 <= fuel -> n <= 30 ->
        (forall i, i < n ->
           retryable (outcomeAt rt (createEndpoint c) ctx (IKfDef req)
                                2000000000%Z i w)) ->
        createEndpoint c ctx (IKfDef req)
                       (worldAt rt (createEndpoint c) ctx (IKfDef req)
                                2000000000%Z n w)
        = ((resp, None), w1) ->
        exists (w' : World) (log : list Obs'),
          CreateDeployment (spyRt rt) fuel (spyCl c) ctx req (w, [])
          = Some (resultOf rt (Classify resp), (w', log))
          /\ CreateDeployment rt fuel c ctx req w
             = Some (resultOf rt (Classify resp), w')
          /\ length (callsOf log) = S n)
  /\ (31 <= fuel ->
      exists (res : Result) (w' : World) (log : list Obs'),
        CreateDeployment (spyRt rt) fuel (spyCl c) ctx req (w, [])
        = Some (res, (w', log))
        /\ CreateDeployment rt fuel c ctx req w = Some (res, w')
        /\ (forall os, callsOf log = os ++ [(resp, None)] ->
              res = resultOf rt (Classify resp)))
  /\ (forall w1,
        getEndpoint c Background (IKfDef req) w = ((resp, None), w1) ->
        fst (GetLatestKfdef rt c req w) = resultOf rt (Classify resp)).
Proof.
  split; [|split; [|split; [|split; [|split; [|split]]]]].
  - unfold Classify, ClassifyBy, successShape, errorShape.
    now destruct resp.
  - intros Raw D E Out success failure onS onE other raw d Hd.
    unfold ClassifyBy. now rewrite Hd.
  - intros p Hp. unfold Classify, ClassifyBy. now rewrite Hp.
  - destruct resp; cbn; auto.
  - intros n w1 Hf Hn Hpre Hep.
    assert (Ho : outcomeAt rt (createEndpoint c) ctx (IKfDef req)
                           2000000000%Z n w = (resp, None)).
    { unfold outcomeAt. now rewrite Hep. }
    destruct (CreateDeployment_stops_at (URL:=URL) (Limiter:=Limiter)
                rt c ctx req w [] Hf Hn Hpre) as (w' & Hs & Hu & _).
    { right. rewrite Ho. apply not_retryable_decoded. }
    rewrite Ho in Hs, Hu. cbn [app] in Hs.
    eexists _, _. split; [exact Hs|]. split; [exact Hu|].
    rewrite callsOf_retryTrace, length_app, length_map, length_seq.
    cbn [length]. lia.
  - intros Hf.
    destruct (CreateDeployment_run (URL:=URL) (Limiter:=Limiter)
                rt c ctx req w [] Hf)
      as (os & last & w' & Hs & Hu & _).
    cbn [app] in Hs.
    exists (finish rt (settle last)), w',
      (retryTrace (2 * time.Second)%Z (os ++ [last])).
    split; [exact Hs|]. split; [exact Hu|].
    intros os' Hcalls. rewrite callsOf_retryTrace in Hcalls.
    apply app_inj_tail in Hcalls as [_ ->]. reflexivity.
  - intros w1 Hep.
    destruct (GetLatestKfdef_run (URL:=URL) (Limiter:=Limiter) rt c req w [])
      as (o & w1' & w' & Hep' & _ & Hu & _).
    rewrite Hu. rewrite Hep in Hep'. injection Hep' as <- _. reflexivity.
Qed.

(** C3.  If every attempt of [CreateDeployment] returns an error of the
    transport, that is an error that is not the permanent wrapper of the
    retry library, the retry budget is used up (31 calls were made, the
    answers of the endpoint in the successive worlds) and [CreateDeployment]
    returns a nil result together with the error of the last attempt.  In
    terms of the endpoint alone: if its answers in the 31 successive worlds
    are all such errors, the result is nil with the error of the 31st. *)
Theorem create_exhausted_returns_last_error (rt : Runtime') (c : Client')
    (ctx : Context) (req : KfDef) (w : World) (fuel : nat) :
  31 <= fuel ->
  exists (res : Result) (w' : World) (log : list Obs'),
    CreateDeployment (spyRt rt) fuel (spyCl c) ctx req (w, [])
    = Some (res, (w', log))
    /\ CreateDeployment rt fuel c ctx req w = Some (res, w')
    /\ callsOf log
       = map (fun i => outcomeAt rt (createEndpoint c) ctx (IKfDef req)
                                 2000000000%Z i w)
             (seq 0 (length (callsOf log)))
    /\ (Forall retryable (callsOf log) ->
        exists os resp e,
          callsOf log = os ++ [(resp, Some e)]
          /\ length os = 30
          /\ res = (None, Some e)
          /\ w' = snd (createEndpoint c ctx (IKfDef req)
                         (worldAt rt (createEndpoint c) ctx (IKfDef req)
                                  2000000000%Z 30 w)))
    /\ ((forall i, i <= 30 ->
           retryable (outcomeAt rt (createEndpoint c) ctx (IKfDef req)
                                2000000000%Z i w)) ->
        length (callsOf log) = 31
        /\ res = (None,
                  snd (outcomeAt rt (createEndpoint c) ctx (IKfDef req)
                                 2000000000%Z 30 w))).
Proof.
  intros Hf.
  destruct (stop_exists rt (createEndpoint c) ctx (IKfDef req)
              2000000000%Z w 30) as (n & Hn & Hpre & Hend).
  destruct (CreateDeployment_stops_at (URL:=URL) (Limiter:=Limiter)
              rt c ctx req w [] Hf Hn Hpre Hend) as (w' & Hs & Hu & Hw).
  cbn [app] in Hs.
  set (out := fun i => outcomeAt rt (createEndpoint c) ctx (IKfDef req)
                                 2000000000%Z i w) in *.
  exists (finish rt (settle (out n))), w',
    (retryTrace 2000000000%Z (map out (seq 0 n) ++ [out n])).
  split; [exact Hs|]. split; [exact Hu|].
  rewrite callsOf_retryTrace. split; [|split].
  - rewrite length_app, length_map, length_seq. cbn [length].
    rewrite Nat.add_1_r. exact (map_seq_snoc out n).
  - intros Hall. apply Forall_app in Hall as [_ Hl]. apply Forall_inv in Hl.
    destruct Hend as [->|Hnr]; [|now elim Hnr].
    destruct (retryable_inv Hl) as (e & He & _ & Hun).
    exists (map out (seq 0 30)), (fst (out 30)), e.
    split; [|split; [|split]].
    + f_equal. f_equal. rewrite <- He. now destruct (out 30).
    + now rewrite length_map, length_seq.
    + unfold finish, settle. cbn [fst snd]. now rewrite Hun.
    + apply Hw. left. unfold settle. cbn [snd]. fold (out 30).
      rewrite Hun. discriminate.
  - intros Hall.
    destruct Hend as [->|Hnr]; [|elim Hnr; apply Hall; exact Hn].
    destruct (retryable_inv (Hall 30 (le_n 30))) as (e & He & _ & Hun).
    split; [now rewrite length_app, length_map, length_seq|].
    fold (out 30) in He, Hun |- *.
    unfold finish, settle. cbn [fst snd]. now rewrite Hun, He.
Qed.

Lemma finish_not_both (rt : Runtime') (o : outcome') :
  fst (finish rt o) = None \/ snd (finish rt o) = None.
Proof.
  destruct o as [resp [e|]]; [now left|].
  unfold finish, Classify, ClassifyBy, successShape, errorShape.
  destruct resp; cbn; auto.
Qed.

Lemma finish_exactlyOne (rt : Runtime') (o : outcome') :
  o <> (IKfDefPtr None, None) -> exactlyOne (finish rt o).
Proof.
  intros Ho. destruct o as [resp [e|]]; [now right|].
  unfold exactlyOne, finish, Classify, ClassifyBy, successShape, errorShape.
  destruct resp as [| |[p|]| |]; cbn; try (now right). now left.
Qed.

Lemma finish_nil_pointer (rt : Runtime') :
  finish rt (IKfDefPtr None, None) = (None, None).
Proof. reflexivity. Qed.

Lemma exactlyOne_finish (rt : Runtime') (o : outcome') :
  exactlyOne (finish rt o) <-> o <> (IKfDefPtr None, None).
Proof.
  split; [|apply finish_exactlyOne].
  intros [[H _]|[_ H]] ->; now elim H.
Qed.

(** C4, as the code has it.  [CreateDeployment] calls its endpoint at least
    once and at most 31 times: a first attempt and at most 30 retries.
    Between each two consecutive calls it waits for a timer of two seconds,
    and it waits nowhere else. *)
Theorem create_at_most_31_calls (rt : Runtime') (c : Client')
    (ctx : Context) (req : KfDef) (w : World) (k : nat) :
  exists (res : Result) (w' : World) (log : list Obs'),
    CreateDeployment (spyRt rt) (31 + k) (spyCl c) ctx req (w, [])
    = Some (res, (w', log))
    /\ CreateDeployment rt (31 + k) c ctx req w = Some (res, w')
    /\ 1 <= length (callsOf log) <= 31
    /\ log = retryTrace 2000000000%Z (callsOf log)
    /\ waitsOf log = repeat 2000000000%Z (length (callsOf log) - 1).
Proof.
  assert (Hf : 31 <= 31 + k) by lia.
  destruct (CreateDeployment_run (URL:=URL) (Limiter:=Limiter)
              rt c ctx req w [] Hf)
    as (os & last & w' & Hs & Hu & _ & Hlen & _).
  cbn [app] in Hs.
  exists (finish rt (settle last)), w',
    (retryTrace (2 * time.Second)%Z (os ++ [last])).
  split; [exact Hs|]. split; [exact Hu|].
  rewrite waitsOf_retryTrace, callsOf_retryTrace, length_app. cbn [length].
  split; [lia|]. split; reflexivity.
Qed.

(** C5, as the code has it.  The retry loop of [CreateDeployment] does not
    look at the context it was given; the context is only handed to each
    endpoint call.  So under a context that is done from the start, with an
    endpoint that answers every call made under a done context with an error
    that is not a permanent one, [CreateDeployment] still goes through its
    whole budget: 31 calls, the answers of the endpoint in the successive
    worlds, and 30 waits of two seconds; it then returns a nil result and
    the error of the last call.  And whether contexts are closed makes no
    difference to it: with any other context that the endpoint treats like
    the given one, and any other account of which contexts are closed, it
    returns the same result in the same world. *)
Theorem create_ignores_cancellation (rt : Runtime') (c : Client')
    (ctx : Context) (req : KfDef) (w : World) (fuel : nat) :
  31 <= fuel ->
  (forall w0, Done rt ctx w0 = true) ->
  (forall rq w0, Done rt ctx w0 = true ->
                 retryable (fst (createEndpoint c ctx rq w0))) ->
  (exists (os : list outcome') (resp : iface') (e : error') (w' : World)
          (log : list Obs'),
      CreateDeployment (spyRt rt) fuel (spyCl c) ctx req (w, [])
      = Some ((None, Some e), (w', log))
      /\ CreateDeployment rt fuel c ctx req w = Some ((None, Some e), w')
      /\ callsOf log = os ++ [(resp, Some e)]
      /\ length os = 30
      /\ callsOf log
         = map (fun i => outcomeAt rt (createEndpoint c) ctx (IKfDef req)
                                   2000000000%Z i w)
               (seq 0 31)
      /\ waitsOf log = repeat 2000000000%Z 30
      /\ log = retryTrace 2000000000%Z (callsOf log))
  /\ (forall (closed : nat -> World -> bool) (ctx2 : Context),
        (forall rq w0,
           createEndpoint c ctx rq w0 = createEndpoint c ctx2 rq w0) ->
        CreateDeployment (withClosed rt closed) fuel c ctx2 req w
        = CreateDeployment rt fuel c ctx req w).
Proof.
  intros Hf Hdone Hfail. split.
  - set (out := fun i => outcomeAt rt (createEndpoint c) ctx (IKfDef req)
                                   2000000000%Z i w).
    assert (Hall : forall i, retryable (out i)).
    { intros i. unfold out, outcomeAt. apply Hfail, Hdone. }
    destruct (CreateDeployment_stops_at (URL:=URL) (Limiter:=Limiter)
                rt c ctx req w [] Hf (le_n 30)) as (w' & Hs & Hu & _).
    { intros i _. apply Hall. }
    { now left. }
    fold out in Hs, Hu. fold (out 30) in Hs, Hu. cbn [app] in Hs.
    destruct (retryable_inv (Hall 30)) as (e & He & _ & Hun).
    assert (Hfin : finish rt (settle (out 30)) = (None, Some e)).
    { unfold finish, settle. cbn [fst snd]. now rewrite Hun. }
    rewrite Hfin in Hs, Hu.
    exists (map out (seq 0 30)), (fst (out 30)), e, w',
      (retryTrace 2000000000%Z (map out (seq 0 30) ++ [out 30])).
    split; [exact Hs|]. split; [exact Hu|].
    rewrite callsOf_retryTrace, waitsOf_retryTrace, length_map, length_seq.
    split; [|split; [reflexivity|split; [|split; reflexivity]]].
    + f_equal. f_equal. rewrite <- He. now destruct (out 30).
    + exact (map_seq_snoc out 30).
  - intros closed ctx2 Hep. symmetry. now apply CreateDeployment_agree.
Qed.

(** C7.  [GetLatestKfdef] calls its endpoint exactly once, under the
    background context, and never waits or retries.  An error of that call
    is returned as it is, with a nil result; a decoded response is mapped by
    the classification that [CreateDeployment] applies, so that
    [CreateDeployment], given the same response, returns the same result.
    On the client that [NewKfctlClient] builds that one call is rate
    limited: it asks the limiter of the client exactly once; admitted, it
    makes exactly one HTTP round trip, a POST, and the result is made from
    the answer of that round trip; refused, it makes none and returns
    [ErrLimited] with a nil result. *)
Theorem get_single_invocation (rt : Runtime') (c : Client') (req : KfDef)
    (w : World) :
  (exists (resp : iface') (err : option error') (w1 : World) (res : Result)
          (w' : World),
      getEndpoint c Background (IKfDef req) w = ((resp, err), w1)
      /\ GetLatestKfdef (spyRt rt) (spyCl c) req (w, [])
         = (res, (w', [ObsCall (URL:=URL) (Limiter:=Limiter) resp err]))
      /\ GetLatestKfdef rt c req w = (res, w')
      /\ (forall e, err = Some e -> res = (None, Some e) /\ w' = w1)
      /\ (err = None -> res = resultOf rt (Classify resp))
      /\ (err = None ->
          forall ctx fuel w0 w0',
            createEndpoint c ctx (IKfDef req) w0 = ((resp, None), w0') ->
            option_map fst (CreateDeployment rt (S fuel) c ctx req w0)
            = Some res))
  /\ (forall (pf : Platform') (instance : string) (w0 : World) (u : URL),
        url_Parse pf (sanitize instance) = inl u ->
        exists (l : Limiter) (w1 : World) (cB : Client')
               (cS : @KfctlClient KfDef httpError Dyn TErr
                                  (World * list Obs')),
          rate_NewLimiter pf (Every time.Second) 100 w0 = (l, w1)
          /\ NewKfctlClient pf instance w0 = ((Some cB, None), w1)
          /\ NewKfctlClient (spyPlatform pf) instance (w0, [])
             = ((Some cS, None), (w1, []))
          /\ forall w2,
              GetLatestKfdef (spyRt rt) cS req (w2, [])
              = (fst (GetLatestKfdef rt cB req w2),
                 (snd (GetLatestKfdef rt cB req w2),
                  if fst (rate_Allow pf l w2)
                  then [ObsAllow l true;
                        ObsHTTP "POST" (copyURL pf u (KfctlCreatePath pf))]
                  else [ObsAllow l false]))
              /\ (fst (rate_Allow pf l w2) = false ->
                  GetLatestKfdef rt cB req w2
                  = ((None, Some ErrLimited), snd (rate_Allow pf l w2)))
              /\ (fst (rate_Allow pf l w2) = true ->
                  fst (GetLatestKfdef rt cB req w2)
                  = finish rt
                      (fst (httpClient pf "POST"
                              (copyURL pf u (KfctlCreatePath pf))
                              Background (IKfDef req)
                              (snd (rate_Allow pf l w2)))))).
Proof.
  split.
  - destruct (GetLatestKfdef_run (URL:=URL) (Limiter:=Limiter) rt c req w [])
      as ([resp err] & w1 & w' & Hep & Hs & Hu & Hw).
    exists resp, err, w1, (finish rt (resp, err)), w'.
    split; [exact Hep|]. split; [exact Hs|]. split; [exact Hu|].
    split; [|split].
    + intros e ->. split; [reflexivity|]. now apply Hw.
    + now intros ->.
    + intros -> ctx fuel w0 w0' Hc.
      erewrite CreateDeployment_first_try by exact Hc.
      cbn [option_map]. f_equal. apply (respond_finish rt (resp, None)).
  - intros pf instance w0 u Hu.
    destruct (rate_NewLimiter pf (Every time.Second) 100 w0) as [l w1] eqn:Hl.
    set (tgt := copyURL pf u (KfctlCreatePath pf)).
    exists l, w1,
      {| createEndpoint := limitedPost pf l tgt;
         getEndpoint := limitedPost pf l tgt |},
      {| createEndpoint := limitedPost (spyPlatform pf) l tgt;
         getEndpoint := limitedPost (spyPlatform pf) l tgt |}.
    split; [reflexivity|].
    split; [now apply NewKfctlClient_built|].
    split.
    { apply (NewKfctlClient_built (spyPlatform pf)); [exact Hu|].
      cbn [rate_NewLimiter spyPlatform]. now rewrite Hl. }
    intros w2.
    rewrite (GetLatestKfdef_respond (spyRt rt)), (GetLatestKfdef_respond rt).
    cbn [getEndpoint]. rewrite limitedPost_spied. cbn [fst snd app].
    split; [|split].
    + destruct (limitedPost pf l tgt Background (IKfDef req) w2)
        as [[resp e] wa].
      cbn [fst snd]. exact (respond_spied rt (e, (resp, e)) wa _).
    + intros Hno. rewrite limitedPost_eq, Hno. reflexivity.
    + intros Hyes. rewrite limitedPost_eq, Hyes.
      destruct (httpClient pf "POST" tgt Background (IKfDef req)
                           (snd (rate_Allow pf l w2))) as [[resp e] wa].
      cbn [fst snd]. exact (respond_finish rt (resp, e) wa).
Qed.

(** C10, as the code has it.  Every return of [CreateDeployment] and of
    [GetLatestKfdef] carries a nil result or a nil error, never both
    non-nil.  It carries exactly one of the two exactly when the call that
    ended the method did not come back, without an error, with a nil
    pointer to a [KfDef]; such an answer is passed on as it is, a nil result
    with a nil error.  For [CreateDeployment] the call that ends it is the
    last attempt, and its error counts as the retry loop hands it over: a
    permanent error stands for the error it wraps, which may be nil. *)
Theorem result_or_error (rt : Runtime') (c : Client') (ctx : Context)
    (req : KfDef) (w : World) (k : nat) :
  (exists (res : Result) (w' : World) (log : list Obs') (os : list outcome')
          (last : outcome'),
      CreateDeployment (spyRt rt) (31 + k) (spyCl c) ctx req (w, [])
      = Some (res, (w', log))
      /\ CreateDeployment rt (31 + k) c ctx req w = Some (res, w')
      /\ callsOf log = os ++ [last]
      /\ last = outcomeAt rt (createEndpoint c) ctx (IKfDef req)
                          2000000000%Z (length os) w
      /\ (fst res = None \/ snd res = None)
      /\ (exactlyOne res <-> settle last <> (IKfDefPtr None, None))
      /\ (settle last = (IKfDefPtr None, None) -> res = (None, None))
      /\ (~ In (IKfDefPtr None, None) (map settle (callsOf log)) ->
          exactlyOne res))
  /\ (fst (fst (GetLatestKfdef rt c req w)) = None
      \/ snd (fst (GetLatestKfdef rt c req w)) = None)
  /\ (exactlyOne (fst (GetLatestKfdef rt c req w))
      <-> fst (getEndpoint c Background (IKfDef req) w)
          <> (IKfDefPtr None, None))
  /\ (fst (getEndpoint c Background (IKfDef req) w) = (IKfDefPtr None, None)
      -> fst (GetLatestKfdef rt c req w) = (None, None)).
Proof.
  split; [|split; [|split]].
  - assert (Hf : 31 <= 31 + k) by lia.
    destruct (CreateDeployment_stops (URL:=URL) (Limiter:=Limiter)
                rt c ctx req w [] Hf)
      as (n & w' & Hn & Hpre & Hend & Hs & Hu).
    cbn [app] in Hs.
    set (out := fun i => outcomeAt rt (createEndpoint c) ctx (IKfDef req)
                                   2000000000%Z i w) in *.
    exists (finish rt (settle (out n))), w',
      (retryTrace 2000000000%Z (map out (seq 0 n) ++ [out n])),
      (map out (seq 0 n)), (out n).
    split; [exact Hs|]. split; [exact Hu|].
    rewrite callsOf_retryTrace, length_map, length_seq.
    split; [reflexivity|]. split; [reflexivity|].
    split; [apply finish_not_both|].
    split; [apply exactlyOne_finish|].
    split; [intros ->; reflexivity|].
    intros Hnn. apply finish_exactlyOne. intros Heq. apply Hnn.
    rewrite map_app. apply in_or_app. right. left. exact Heq.
  - destruct (GetLatestKfdef_run (URL:=URL) (Limiter:=Limiter) rt c req w [])
      as (o & w1 & w' & _ & _ & -> & _).
    apply finish_not_both.
  - destruct (GetLatestKfdef_run (URL:=URL) (Limiter:=Limiter) rt c req w [])
      as (o & w1 & w' & Hep & _ & -> & _).
    rewrite Hep. cbn [fst]. apply exactlyOne_finish.
  - destruct (GetLatestKfdef_run (URL:=URL) (Limiter:=Limiter) rt c req w [])
      as (o & w1 & w' & Hep & _ & -> & _).
    rewrite Hep. cbn [fst]. intros ->. reflexivity.
Qed.

(** C6.  [NewKfctlClient] makes one limiter and puts it in front of both
    endpoints.  Every call of either endpoint, hence every attempt of a
    retried [CreateDeployment], first asks that limiter; when it refuses, the
    call returns [ErrLimited] at once and the HTTP client behind it is not
    called (the world is as the limiter left it, the notebook shows the
    question and no round trip).  Inside [CreateDeployment] a refused attempt
    is an attempt like any other: it is followed by a retry as long as
    retries are left, and a limiter that refuses every time uses up the
    budget of 31 attempts, after which [ErrLimited] is returned. *)
Theorem limiter_shared_and_rejecting (pf : Platform') (rt : Runtime')
    (instance : string) (w : World) (u : URL) :
  url_Parse pf (sanitize instance) = inl u ->
  exists (l : Limiter) (w1 : World) (c : Client')
         (cS : @KfctlClient KfDef httpError Dyn TErr (World * list Obs')),
    rate_NewLimiter pf (Every time.Second) 100 w = (l, w1)
    /\ NewKfctlClient pf instance w = ((Some c, None), w1)
    /\ NewKfctlClient (spyPlatform pf) instance (w, [])
       = ((Some cS, None), (w1, []))
    /\ (forall ep epS,
          (ep = createEndpoint c /\ epS = createEndpoint cS)
          \/ (ep = getEndpoint c /\ epS = getEndpoint cS) ->
          forall ctx req w0 lg,
            (fst (rate_Allow pf l w0) = false ->
             ep ctx req w0
             = ((INil, Some ErrLimited), snd (rate_Allow pf l w0))
             /\ epS ctx req (w0, lg)
                = ((INil, Some ErrLimited),
                   (snd (rate_Allow pf l w0), lg ++ [ObsAllow l false])))
            /\ (fst (rate_Allow pf l w0) = true ->
                ep ctx req w0
                = httpClient pf "POST" (copyURL pf u (KfctlCreatePath pf))
                             ctx req (snd (rate_Allow pf l w0))
                /\ epS ctx req (w0, lg)
                   = (fst (ep ctx req w0),
                      (snd (ep ctx req w0),
                       lg ++ [ObsAllow l true;
                              ObsHTTP "POST"
                                (copyURL pf u (KfctlCreatePath pf))]))))
    /\ (forall ctx req w0 fuel,
          31 <= fuel ->
          exists (res : Result) (w' : World) (log : list Obs'),
            CreateDeployment (spyRt rt) fuel (spyCl c) ctx req (w0, [])
            = Some (res, (w', log))
            /\ CreateDeployment rt fuel c ctx req w0 = Some (res, w')
            /\ (forall i resp,
                  callsOf log !! i = Some (resp, Some ErrLimited) ->
                  i < 30 -> S i < length (callsOf log))
            /\ length (callsOf log) <= 31
            /\ ((forall w2, fst (rate_Allow pf l w2) = false) ->
                res = (None, Some ErrLimited)
                /\ callsOf log = repeat (INil, Some ErrLimited) 31)).
Proof.
  intros Hu.
  destruct (rate_NewLimiter pf (Every time.Second) 100 w) as [l w1] eqn:Hl.
  set (tgt := copyURL pf u (KfctlCreatePath pf)).
  exists l, w1,
    {| createEndpoint := limitedPost pf l tgt;
       getEndpoint := limitedPost pf l tgt |},
    {| createEndpoint := limitedPost (spyPlatform pf) l tgt;
       getEndpoint := limitedPost (spyPlatform pf) l tgt |}.
  split; [reflexivity|].
  split; [now apply NewKfctlClient_built|].
  split.
  { apply (NewKfctlClient_built (spyPlatform pf)); [exact Hu|].
    cbn [rate_NewLimiter spyPlatform]. now rewrite Hl. }
  split.
  - intros ep epS Hep ctx req w0 lg.
    assert (ep = limitedPost pf l tgt
            /\ epS = limitedPost (spyPlatform pf) l tgt) as [-> ->].
    { destruct Hep as [[-> ->]|[-> ->]]; split; reflexivity. }
    rewrite limitedPost_spied, limitedPost_eq.
    split; intros ->; split; reflexivity.
  - intros ctx req w0 fuel Hf.
    destruct (CreateDeployment_run (URL:=URL) (Limiter:=Limiter) rt
                {| createEndpoint := limitedPost pf l tgt;
                   getEndpoint := limitedPost pf l tgt |}
                ctx req w0 [] Hf)
      as (os & last & w' & Hs & Hu' & Hall & Hlen & Hlast & Hby).
    cbn [app] in Hs.
    exists (finish rt (settle last)), w',
      (retryTrace (2 * time.Second)%Z (os ++ [last])).
    split; [exact Hs|]. split; [exact Hu'|].
    rewrite callsOf_retryTrace, length_app. cbn [length].
    split; [|split; [lia|]].
    + intros i resp Hi Hlt.
      destruct (lookup_snoc_inv _ _ _ Hi) as [[Hlt' _]|[-> <-]]; [lia|].
      assert (length os = 30) by (apply Hlast; reflexivity). lia.
    + intros Hno.
      assert (Hrej : Forall (eq (INil, Some ErrLimited)) (os ++ [last])).
      { eapply Forall_impl; [exact Hby|]. cbn [createEndpoint].
        intros o [w2 <-]. rewrite limitedPost_eq, Hno. reflexivity. }
      pose proof Hrej as Hrej'.
      apply Forall_app in Hrej' as [_ Hl']. apply Forall_inv in Hl'.
      subst last. split; [reflexivity|].
      rewrite (Forall_eq_repeat Hrej), length_app, Hlast by reflexivity.
      reflexivity.
Qed.

(** C8, as the code has it.  [NewKfctlClient] puts "http://" in front of
    the instance address exactly when the address does not begin with the
    four characters "http", so that the address it parses always begins with
    "http".  It fails, with the error of the parser and without a client,
    exactly when parsing that address fails; otherwise it returns a client
    and no error. *)
Theorem NewKfctlClient_address (pf : Platform') (instance : string)
    (w : World) :
  (String.prefix "http" instance = false ->
   sanitize instance = ("http://" ++ instance)%string)
  /\ (String.prefix "http" instance = true -> sanitize instance = instance)
  /\ String.prefix "http" (sanitize instance) = true
  /\ (forall e, url_Parse pf (sanitize instance) = inr e <->
                NewKfctlClient pf instance w = ((None, Some e), w))
  /\ ((exists u, url_Parse pf (sanitize instance) = inl u) <->
      (exists c w1, NewKfctlClient pf instance w = ((Some c, None), w1))).
Proof.
  split; [|split; [|split; [|split]]].
  - intros H. unfold sanitize. now rewrite H.
  - intros H. unfold sanitize. now rewrite H.
  - unfold sanitize.
    destruct (String.prefix "http" instance) eqn:H; [exact H | reflexivity].
  - intros e. split; [apply NewKfctlClient_failed|].
    unfold NewKfctlClient.
    destruct (url_Parse pf (sanitize instance)) as [u|e']; [|congruence].
    destruct (rate_NewLimiter pf _ _ w). discriminate.
  - split.
    + intros [u Hu].
      destruct (rate_NewLimiter pf (Every time.Second) 100 w) as [l w1] eqn:Hl.
      eexists _, w1. eapply NewKfctlClient_built; [exact Hu | exact Hl].
    + intros (c & w1 & H). unfold NewKfctlClient in H.
      destruct (url_Parse pf (sanitize instance)) as [u|e]; [now exists u|].
      discriminate.
Qed.

(** C9, on the code.  The get endpoint is built with [KfctlCreatePath], like
    the create endpoint: the two endpoints of a client are the same, and a
    [GetLatestKfdef] that the limiter admits posts to the create path. *)
Theorem get_posts_to_create_path (pf : Platform') (rt : Runtime')
    (instance : string) (w : World) (u : URL) :
  url_Parse pf (sanitize instance) = inl u ->
  exists (l : Limiter) (w1 : World)
         (cS : @KfctlClient KfDef httpError Dyn TErr (World * list Obs')),
    rate_NewLimiter pf (Every time.Second) 100 w = (l, w1)
    /\ NewKfctlClient (spyPlatform pf) instance (w, [])
       = ((Some cS, None), (w1, []))
    /\ getEndpoint cS = createEndpoint cS
    /\ (forall req w0,
          fst (rate_Allow pf l w0) = true ->
          httpOf (snd (snd (GetLatestKfdef (spyRt rt) cS req (w0, []))))
          = [("POST"%string, copyURL pf u (KfctlCreatePath pf))]).
Proof.
  intros Hu.
  destruct (rate_NewLimiter pf (Every time.Second) 100 w) as [l w1] eqn:Hl.
  set (tgt := copyURL pf u (KfctlCreatePath pf)).
  exists l, w1,
    {| createEndpoint := limitedPost (spyPlatform pf) l tgt;
       getEndpoint := limitedPost (spyPlatform pf) l tgt |}.
  split; [reflexivity|].
  split.
  { apply (NewKfctlClient_built (spyPlatform pf)); [exact Hu|].
    cbn [rate_NewLimiter spyPlatform]. now rewrite Hl. }
  split; [reflexivity|].
  intros req w0 Hok.
  rewrite GetLatestKfdef_respond. cbn [getEndpoint].
  rewrite limitedPost_spied, Hok. cbn [fst snd app].
  destruct (limitedPost pf l tgt Background (IKfDef req) w0) as [[resp e] w'].
  cbn [fst snd].
  exact (f_equal (fun r => httpOf (snd (snd r)))
                 (respond_spied rt (e, (resp, e)) w' _)).
Qed.

End Claims.

(** * The claims at work on the simulated deployment *)

Local Open Scope string_scope.

Lemma Sim_closed_from_start (w : Sim.World) : Done Sim.rt (Derived 0) w = true.
Proof. cbn. apply N.leb_le, N.le_0_l. Qed.


(** An unrelated value comes back: [GetLatestKfdef] reports it.  A service
    that fails twice before it answers: [CreateDeployment] returns the
    answer of the third attempt. *)
Lemma classification_three_way_witness :
  fst (GetLatestKfdef Sim.rt Sim.scripted "deployment" Sim.odd)
  = (None, Some (Errorf "Recieved unexpected response; 42"))
  /\ (31 <= 31 /\ 2 <= 30
      /\ (forall i, i < 2 ->
            retryable (outcomeAt Sim.rt (createEndpoint Sim.scripted)
                                 Background (IKfDef "deployment")
                                 2000000000%Z i SimMore.flaky))
      /\ exists w',
          CreateDeployment Sim.rt 31 Sim.scripted Background "deployment"
                           SimMore.flaky
          = Some ((Some "d1 ready", None), w')).
Proof.
  split.
  - destruct (classification_three_way (URL:=string) (Limiter:=nat)
                Sim.rt Sim.scripted Background "deployment" Sim.odd 31
                (IDyn "42"))
      as (Hmap & _ & _ & _ & _ & _ & Hget).
    rewrite (Hget _ eq_refl). exact Hmap.
  - assert (Hpre : forall i, i < 2 ->
              retryable (outcomeAt Sim.rt (createEndpoint Sim.scripted)
                                   Background (IKfDef "deployment")
                                   2000000000%Z i SimMore.flaky)).
    { intros [|[|i]] Hi; [reflexivity | reflexivity | lia]. }
    split; [lia|]. split; [lia|]. split; [exact Hpre|].
    destruct (classification_three_way (URL:=string) (Limiter:=nat)
                Sim.rt Sim.scripted Background "deployment" SimMore.flaky 31
                (IKfDefPtr (Some "d1 ready")))
      as (_ & _ & _ & _ & Hcreate & _).
    destruct (Hcreate 2 _ (le_n 31) ltac:(lia) Hpre eq_refl)
      as (w' & log & _ & Hu & _).
    exists w'. exact Hu.
Defined.

(** The remote service is down: 31 calls, and the last error comes back. *)
Lemma create_exhausted_returns_last_error_witness :
  31 <= 31
  /\ (forall i, i <= 30 ->
        retryable (outcomeAt Sim.rt (createEndpoint Sim.scripted) Background
                             (IKfDef "deployment") 2000000000%Z i Sim.down))
  /\ exists w' log,
      CreateDeployment Sim.watchRt 31 (Sim.watch Sim.scripted) Background
                       "deployment" (Sim.down, [])
      = Some ((None, Some (TransportError "connection refused")), (w', log))
      /\ Forall retryable (callsOf log)
      /\ length (callsOf log) = 31.
Proof.
  assert (Hdown : forall i, i <= 30 ->
            retryable (outcomeAt Sim.rt (createEndpoint Sim.scripted)
                                 Background (IKfDef "deployment")
                                 2000000000%Z i Sim.down)).
  { intros i Hi.
    do 31 (destruct i as [|i]; [vm_compute; reflexivity|]). lia. }
  split; [lia|]. split; [exact Hdown|].
  destruct (create_exhausted_returns_last_error (URL:=string) (Limiter:=nat)
              Sim.rt Sim.scripted Background "deployment" Sim.down
              (le_n 31))
    as (res & w' & log & Hs & _ & _ & Hall & Hdirect).
  exists w', log.
  destruct (Hdirect Hdown) as [Hlen Hres].
  pose proof (f_equal Sim.notebook Hs) as Hlog.
  vm_compute in Hlog. vm_compute in Hres.
  subst res. split; [exact Hs|].
  assert (Hretry : Forall retryable (callsOf log)).
  { rewrite <- Hlog. cbn [callsOf].
    repeat (constructor; [reflexivity|]). constructor. }
  split; [exact Hretry|].
  destruct (Hall Hretry) as (os & resp & e & Hcalls & Hlen' & _).
  rewrite Hcalls, length_app, Hlen'. reflexivity.
Defined.

(** A context that is done from the start does not shorten anything. *)
Lemma create_ignores_cancellation_witness :
  31 <= 31
  /\ (forall w0, Done Sim.rt (Derived 0) w0 = true)
  /\ (forall rq w0,
        Done Sim.rt (Derived 0) w0 = true ->
        retryable (fst (createEndpoint Sim.scripted (Derived 0) rq w0)))
  /\ exists e w' log,
      CreateDeployment Sim.watchRt 31 (Sim.watch Sim.scripted) (Derived 0)
                       "deployment" (Sim.ready, [])
      = Some ((None, Some e), (w', log))
      /\ length (callsOf log) = 31
      /\ waitsOf log = repeat 2000000000%Z 30.
Proof.
  assert (Hfail : forall rq w0,
            Done Sim.rt (Derived 0) w0 = true ->
            retryable (fst (createEndpoint Sim.scripted (Derived 0) rq w0))).
  { intros rq w0 Hd. cbn [createEndpoint Sim.scripted].
    unfold Sim.roundTrip. rewrite Hd. reflexivity. }
  split; [lia|]. split; [exact Sim_closed_from_start|].
  split; [exact Hfail|].
  destruct (create_ignores_cancellation (URL:=string) (Limiter:=nat)
              Sim.rt Sim.scripted (Derived 0) "deployment" Sim.ready
              (le_n 31) Sim_closed_from_start Hfail)
    as ((os & resp & e & w' & log & Hs & _ & Hcalls & Hlen & _ & Hwaits & _)
        & _).
  exists e, w', log. split; [exact Hs|]. split; [|exact Hwaits].
  rewrite Hcalls, length_app, Hlen. reflexivity.
Defined.

(** A limiter without tokens refuses both endpoints at once, and a limiter
    that admits nothing costs [CreateDeployment] its 31 attempts. *)
Lemma limiter_shared_and_rejecting_witness :
  url_Parse Sim.pf (sanitize "localhost:8080") = inl "http://localhost:8080"
  /\ (exists c,
        fst (fst (NewKfctlClient Sim.pf "localhost:8080" Sim.down)) = Some c
        /\ forall ctx req,
            createEndpoint c ctx req Sim.drained
            = ((INil, Some ErrLimited), Sim.drained)
            /\ getEndpoint c ctx req Sim.drained
               = ((INil, Some ErrLimited), Sim.drained))
  /\ (exists c w' log,
        fst (fst (NewKfctlClient Sim.shut "localhost:8080" Sim.ready)) = Some c
        /\ CreateDeployment Sim.watchRt 31 (Sim.watch c) Background
                            "deployment" (Sim.ready, [])
           = Some ((None, Some ErrLimited), (w', log))
        /\ callsOf log = repeat (INil, Some ErrLimited) 31).
Proof.
  split; [reflexivity|]. split.
  - destruct (limiter_shared_and_rejecting Sim.pf Sim.rt "localhost:8080"
                Sim.down (u:="http://localhost:8080") eq_refl)
      as (l & w1 & c & cS & Hl & Hc & _ & Hep & _).
    exists c. split; [now rewrite Hc|].
    vm_compute in Hl. injection Hl as Hl _. subst l.
    intros ctx req. split.
    + exact (proj1 (proj1 (Hep _ _ (or_introl (conj eq_refl eq_refl))
                              ctx req Sim.drained []) eq_refl)).
    + exact (proj1 (proj1 (Hep _ _ (or_intror (conj eq_refl eq_refl))
                              ctx req Sim.drained []) eq_refl)).
  - destruct (limiter_shared_and_rejecting Sim.shut Sim.rt "localhost:8080"
                Sim.ready (u:="http://localhost:8080") eq_refl)
      as (l & w1 & c & cS & _ & Hc & _ & _ & Hrun).
    destruct (Hrun Background "deployment" Sim.ready 31 (le_n 31))
      as (res & w' & log & Hs & _ & _ & _ & Hshut).
    destruct (Hshut (fun _ => eq_refl)) as [Hres Hcalls].
    exists c, w', log. split; [now rewrite Hc|].
    subst res. split; [exact Hs | exact Hcalls].
Defined.

(** The remote service is down: [GetLatestKfdef] calls once and gives up.
    On a built client whose limiter has no token left it gives up without a
    round trip. *)
Lemma get_single_invocation_witness :
  (exists w',
     GetLatestKfdef Sim.watchRt (Sim.watch Sim.scripted) "deployment"
                    (Sim.down, [])
     = ((None, Some (TransportError "connection refused")),
        (w', [ObsCall INil (Some (TransportError "connection refused"))])))
  /\ url_Parse Sim.pf (sanitize "localhost:8080")
     = inl "http://localhost:8080"
  /\ exists c,
      fst (fst (NewKfctlClient Sim.pf "localhost:8080" Sim.down)) = Some c
      /\ GetLatestKfdef Sim.rt c "deployment" Sim.drained
         = ((None, Some ErrLimited), Sim.drained).
Proof.
  destruct (get_single_invocation (URL:=string) (Limiter:=nat)
              Sim.rt Sim.scripted "deployment" Sim.down)
    as ((resp & err & w1 & res & w' & Hep & Hs & _ & Herr & _) & Hbuilt).
  split; [|split; [reflexivity|]].
  - vm_compute in Hep. injection Hep as Hr He _. subst resp err.
    destruct (Herr _ eq_refl) as [Hres _]. subst res.
    exists w'. exact Hs.
  - destruct (Hbuilt Sim.pf "localhost:8080" Sim.down
                     "http://localhost:8080" eq_refl)
      as (l & w2 & cB & cS & Hl & Hc & _ & Hget).
    exists cB. split; [now rewrite Hc|].
    vm_compute in Hl. injection Hl as Hl _. subst l.
    exact (proj1 (proj2 (Hget Sim.drained)) eq_refl).
Defined.

(** An address without "http" in front gains it; one the parser refuses
    gives no client. *)
Lemma NewKfctlClient_address_witness :
  String.prefix "http" "localhost:8080" = false
  /\ sanitize "localhost:8080" = "http://localhost:8080"
  /\ NewKfctlClient Sim.pf "bad host" Sim.down
     = ((None, Some (Errorf "invalid character in host name")), Sim.down).
Proof.
  destruct (NewKfctlClient_address Sim.pf "localhost:8080" Sim.down)
    as (Hadd & _).
  destruct (NewKfctlClient_address Sim.pf "bad host" Sim.down)
    as (_ & _ & _ & Hfail & _).
  split; [reflexivity|]. split; [exact (Hadd eq_refl)|].
  apply Hfail. reflexivity.
Defined.

(** [GetLatestKfdef] on a client for "localhost:8080" posts to the create
    path. *)
Lemma get_posts_to_create_path_witness :
  url_Parse Sim.pf (sanitize "localhost:8080") = inl "http://localhost:8080"
  /\ exists cS w1,
      NewKfctlClient (spyPlatform Sim.pf) "localhost:8080" (Sim.ready, [])
      = ((Some cS, None), (w1, []))
      /\ httpOf (snd (snd (GetLatestKfdef Sim.watchRt cS "deployment"
                                          (w1, []))))
         = [("POST", "http://localhost:8080/kfctl/apps/v1alpha2/create")].
Proof.
  split; [reflexivity|].
  destruct (get_posts_to_create_path Sim.pf Sim.rt "localhost:8080" Sim.ready
              (u:="http://localhost:8080") eq_refl)
    as (l & w1 & cS & Hl & Hc & _ & Hpost).
  vm_compute in Hl. injection Hl as Hl Hw. subst l w1.
  eexists cS, _. split; [exact Hc|].
  apply (Hpost "deployment"). reflexivity.
Defined.

(** A ready service: exactly a result.  A service that answers with a nil
    pointer: neither. *)
Lemma result_or_error_witness :
  (exists res w',
     CreateDeployment Sim.rt 31 Sim.scripted Background "deployment" Sim.ready
     = Some (res, w')
     /\ exactlyOne res)
  /\ fst (getEndpoint Sim.scripted Background (IKfDef "deployment")
                      Sim.nilAnswer)
     = (IKfDefPtr None, None)
  /\ fst (GetLatestKfdef Sim.rt Sim.scripted "deployment" Sim.nilAnswer)
     = (None, None).
Proof.
  split; [|split; [reflexivity|]].
  - destruct (result_or_error (URL:=string) (Limiter:=nat) Sim.rt
                Sim.scripted Background "deployment" Sim.ready 0)
      as ((res & w' & log & os & last & Hs & Hu & _ & _ & _ & _ & _ & Hone)
          & _).
    exists res, w'. split; [exact Hu|]. apply Hone.
    pose proof (f_equal Sim.notebook Hs) as Hlog. vm_compute in Hlog.
    rewrite <- Hlog. intros H. vm_compute in H.
    destruct H as [H|[]]. discriminate.
  - destruct (result_or_error (URL:=string) (Limiter:=nat) Sim.rt
                Sim.scripted Background "deployment" Sim.nilAnswer 0)
      as (_ & _ & _ & Hnil).
    exact (Hnil eq_refl).
Defined.

(** ** Where the code departs from the claims *)


(** C4: with the remote service down, [CreateDeployment] makes 31 HTTP round
    trips, one more than 30. *)
Lemma create_makes_31_round_trips :
  length (httpOf (Sim.notebook
                    (Sim.createAt 100 Background "localhost:8080" Sim.down)))
  = 31
  /\ ~ length (httpOf (Sim.notebook
                         (Sim.createAt 100 Background "localhost:8080"
                                       Sim.down)))
       <= 30.
Proof. split; [vm_compute; reflexivity | vm_compute; lia]. Qed.

(** C5: under a context that is done before the first attempt,
    [CreateDeployment] does not return after one call: it makes 31 round
    trips and waits 30 times two seconds, although the service is ready. *)
Lemma create_runs_on_after_cancellation :
  Done Sim.rt (Derived 0) Sim.ready = true
  /\ length (httpOf (Sim.notebook
                       (Sim.createAt 100 (Derived 0) "localhost:8080"
                                     Sim.ready)))
     = 31
  /\ waitsOf (Sim.notebook
                (Sim.createAt 100 (Derived 0) "localhost:8080" Sim.ready))
     = repeat 2000000000%Z 30
  /\ ~ length (httpOf (Sim.notebook
                         (Sim.createAt 100 (Derived 0) "localhost:8080"
                                       Sim.ready)))
       <= 1.
Proof.
  split; [reflexivity|]. split; [vm_compute; reflexivity|].
  split; [vm_compute; reflexivity | vm_compute; lia].
Qed.

(** C8: "httpbin.org" has no scheme and begins with "http": it is parsed as
    it is, without "http://" in front. *)
Lemma sanitize_keeps_schemeless_address :
  hasScheme "httpbin.org" = false
  /\ sanitize "httpbin.org" = "httpbin.org"
  /\ sanitize "httpbin.org" <> "http://httpbin.org".
Proof. split; [reflexivity|]. split; [reflexivity | discriminate]. Qed.

(** C10: an endpoint that answers, without an error, with a nil pointer to
    a [KfDef] makes both methods return a nil result and a nil error. *)
Lemma nil_pointer_gives_neither :
  option_map fst
    (CreateDeployment Sim.rt 100 Sim.scripted Background "deployment"
                      Sim.nilAnswer)
  = Some (None, None)
  /\ fst (GetLatestKfdef Sim.rt Sim.scripted "deployment" Sim.nilAnswer)
     = (None, None)
  /\ ~ exactlyOne (KfDef:=Sim.KfDef) (httpError:=Sim.httpError) (TErr:=string)
                  (None, None).
Proof.
  split; [reflexivity|]. split; [reflexivity|].
  intros [[H _]|[_ H]]; now elim H.
Qed.

(** * Further properties of the code *)

Local Open Scope list_scope.

Section Address.

Lemma prefix_http_short (s : string) :
  String.length s < 4 -> String.prefix "http" s = false.
Proof.
  destruct s as [|c1 [|c2 [|c3 [|c4 s]]]]; cbn [String.length];
    intros H; try lia; cbn [String.prefix];
    repeat match goal with
           | |- context [ascii_dec ?a ?b] => destruct (ascii_dec a b)
           end; reflexivity.
Qed.

(** X8.  Sanitising an address twice is sanitising it once: an address that
    went through lines 28-30 is left alone by them, so that handing an
    already sanitised address to [NewKfctlClient] builds the same client. *)
Theorem sanitize_idempotent (instance : string) :
  sanitize (sanitize instance) = sanitize instance.
Proof.
  destruct (String.prefix "http" instance) eqn:H.
  - assert (E : sanitize instance = instance)
      by (unfold sanitize; now rewrite H).
    now rewrite !E.
  - assert (E : sanitize instance = ("http://" ++ instance)%string)
      by (unfold sanitize; now rewrite H).
    rewrite E. reflexivity.
Qed.

(** X9.  An address of fewer than four characters, the empty address among
    them, cannot begin with "http": it always gains "http://", so that the
    empty address is parsed as "http://". *)
Theorem sanitize_short (instance : string) :
  String.length instance < 4 ->
  sanitize instance = ("http://" ++ instance)%string.
Proof.
  intros H. unfold sanitize. now rewrite (prefix_http_short _ H).
Qed.

End Address.

Section Policy.

Lemma pauses_stopped (n : nat) (d : Duration) (m : Z) :
  (0 < m)%Z ->
  pauses n (backOffTries (ConstantBackOff d) m m) = repeat Stop n.
Proof.
  intros Hm. induction n as [|n IH]; [reflexivity|].
  cbn [pauses NextBackOff].
  destruct (Z.ltb_spec 0 m) as [_|]; [|lia].
  destruct (Z.leb_spec m m) as [_|]; [|lia].
  cbn [repeat]. now rewrite IH.
Qed.

Lemma pauses_counting (d : Duration) :
  forall (k n : nat) (j : Z),
    (j + Z.of_nat k = 30)%Z -> (0 <= j)%Z ->
    pauses n (backOffTries (ConstantBackOff d) 30 j)
    = repeat d (Nat.min n k) ++ repeat Stop (n - k).
Proof.
  induction k as [|k IH]; intros n j Hj Hj0.
  - assert (j = 30%Z) as -> by lia.
    rewrite Nat.min_0_r, Nat.sub_0_r. cbn [repeat app].
    now apply pauses_stopped.
  - destruct n as [|n]; [reflexivity|].
    cbn [pauses NextBackOff].
    replace (0 <? 30)%Z with true by reflexivity.
    destruct (Z.leb_spec 30 j) as [|_]; [lia|].
    rewrite uint64_small by lia.
    rewrite (IH n (j + 1)%Z) by lia. reflexivity.
Qed.

(** X10.  The policy of line 82, once reset: the first 30 calls of [NextBackOff]
    answer a pause of two seconds, every later call answers [Stop]; the
    counter of tries stays at 30 and never starts over. *)
Theorem policy_thirty_pauses (n : nat) :
  pauses n (Reset (WithMaxRetries
                     (NewConstantBackOff (2 * time.Second)%Z) 30))
  = repeat 2000000000%Z (Nat.min n 30) ++ repeat Stop (n - 30).
Proof.
  unfold WithMaxRetries, NewConstantBackOff. cbn [Reset].
  now apply pauses_counting.
Qed.

End Policy.

Section Runs.

Context {KfDef httpError Dyn TErr URL Limiter World : Type}.

Local Abbreviation iface' := (@iface KfDef httpError Dyn).
Local Abbreviation error' := (@error httpError TErr).
Local Abbreviation Runtime' := (@Runtime KfDef httpError Dyn TErr World).
Local Abbreviation Endpoint' := (@Endpoint KfDef httpError Dyn TErr World).
Local Abbreviation Client' := (@KfctlClient KfDef httpError Dyn TErr World).
Local Abbreviation Platform' :=
  (@Platform KfDef httpError Dyn TErr URL Limiter World).
Local Abbreviation Obs' := (@Obs KfDef httpError Dyn TErr URL Limiter).
Local Abbreviation outcome' := (@outcome KfDef httpError Dyn TErr).
Local Abbreviation spyRt :=
  (@spyRuntime KfDef httpError Dyn TErr URL Limiter World).
Local Abbreviation spyEp :=
  (@spyEndpoint KfDef httpError Dyn TErr URL Limiter World).
Local Abbreviation spyCl :=
  (@spyClient KfDef httpError Dyn TErr URL Limiter World).

(** X1.  If the first [n] attempts of [CreateDeployment] come back with errors
    that are retried (errors that are not permanent ones), [n] being at
    most 30, and the next one comes back with a response and no error, then
    [CreateDeployment] returns the classification of that response after
    exactly [n + 1] calls and [n] pauses of two seconds; what later calls
    would have returned plays no part. *)
Theorem create_returns_first_success (rt : Runtime') (c : Client')
    (ctx : Context) (req : KfDef) (w w1 : World) (n fuel : nat)
    (resp : iface') :
  31 <= fuel -> n <= 30 ->
  (forall i, i < n ->
     retryable (outcomeAt rt (createEndpoint c) ctx (IKfDef req)
                          2000000000%Z i w)) ->
  createEndpoint c ctx (IKfDef req)
                 (worldAt rt (createEndpoint c) ctx (IKfDef req)
                          2000000000%Z n w)
  = ((resp, None), w1) ->
  exists (w' : World) (log : list Obs'),
    CreateDeployment (spyRt rt) fuel (spyCl c) ctx req (w, [])
    = Some (resultOf rt (Classify resp), (w', log))
    /\ CreateDeployment rt fuel c ctx req w
       = Some (resultOf rt (Classify resp), w')
    /\ length (callsOf log) = S n
    /\ waitsOf log = repeat 2000000000%Z n
    /\ callsOf log
       = map (fun i => outcomeAt rt (createEndpoint c) ctx (IKfDef req)
                                 2000000000%Z i w)
             (seq 0 (S n)).
Proof.
  intros Hf Hn Hpre Hok.
  assert (Ho : outcomeAt rt (createEndpoint c) ctx (IKfDef req)
                         2000000000%Z n w = (resp, None)).
  { unfold outcomeAt. now rewrite Hok. }
  destruct (CreateDeployment_stops_at (URL:=URL) (Limiter:=Limiter)
              rt c ctx req w [] Hf Hn Hpre) as (w' & Hs & Hu & _).
  { right. rewrite Ho. discriminate. }
  cbn [app] in Hs. rewrite Ho in Hs, Hu.
  eexists _, _. split; [exact Hs|]. split; [exact Hu|].
  rewrite callsOf_retryTrace, waitsOf_retryTrace, length_app, length_map,
    length_seq.
  cbn [length]. rewrite Nat.add_1_r.
  split; [reflexivity|]. split; [f_equal; lia|].
  rewrite seq_S, map_app. cbn [map Nat.add]. now rewrite Ho.
Qed.

(** X2.  [CreateDeployment] is blind to the context: whether any context is
    closed is never asked, and the context reaches the result only through
    the endpoint.  With an endpoint that treats two contexts alike,
    [CreateDeployment] returns the same under both, whatever their state. *)
Theorem create_context_blind (rt : Runtime') (c : Client')
    (ctx1 ctx2 : Context) (closed : nat -> World -> bool) (req : KfDef)
    (w : World) (fuel : nat) :
  (forall rq w0, createEndpoint c ctx1 rq w0 = createEndpoint c ctx2 rq w0) ->
  CreateDeployment rt fuel c ctx1 req w
  = CreateDeployment (withClosed rt closed) fuel c ctx2 req w.
Proof.
  intros Hep. now apply CreateDeployment_agree.
Qed.

End Runs.

Section Limited.

Context {KfDef httpError Dyn TErr URL Limiter World : Type}.

Local Abbreviation iface' := (@iface KfDef httpError Dyn).
Local Abbreviation error' := (@error httpError TErr).
Local Abbreviation Runtime' := (@Runtime KfDef httpError Dyn TErr World).
Local Abbreviation Client' := (@KfctlClient KfDef httpError Dyn TErr World).
Local Abbreviation Platform' :=
  (@Platform KfDef httpError Dyn TErr URL Limiter World).
Local Abbreviation Obs' := (@Obs KfDef httpError Dyn TErr URL Limiter).
Local Abbreviation spyRt :=
  (@spyRuntime KfDef httpError Dyn TErr URL Limiter World).

Lemma allowsOf_app (a b : list Obs') :
  allowsOf (a ++ b) = allowsOf a ++ allowsOf b.
Proof.
  induction a as [|o a IH]; [reflexivity|].
  destruct o; cbn [app allowsOf]; rewrite IH; reflexivity.
Qed.

Lemma httpOf_app (a b : list Obs') : httpOf (a ++ b) = httpOf a ++ httpOf b.
Proof.
  induction a as [|o a IH]; [reflexivity|].
  destruct o; cbn [app httpOf]; rewrite IH; reflexivity.
Qed.

Lemma waitsOf_app (a b : list Obs') :
  waitsOf (a ++ b) = waitsOf a ++ waitsOf b.
Proof.
  induction a as [|o a IH]; [reflexivity|].
  destruct o; cbn [app waitsOf]; rewrite IH; reflexivity.
Qed.

(** What one call of the limited endpoint writes into the notebook. *)
Lemma stepLog_facts (l : Limiter) (tgt : URL) (ok : bool) :
  let sl : list Obs' :=
    if ok then [ObsAllow l true; ObsHTTP "POST" tgt] else [ObsAllow l false] in
  allowsOf sl = [(l, ok)]
  /\ httpOf sl = repeat ("POST"%string, tgt) (if ok then 1 else 0)
  /\ waitsOf sl = [].
Proof. destruct ok; repeat split. Qed.

(** The bounded loop over the limited endpoint of the observed platform:
    every attempt asks the limiter [l] once, only admitted attempts make a
    round trip, and a pause follows every attempt but the last. *)
Lemma attempts_limited (pf : Platform') (rt : Runtime') (l : Limiter)
    (tgt : URL) (ctx : Context) (req : KfDef) (d : Duration) :
  forall (k : nat) (v v' : iface' * option error') (w : World)
         (lg : list Obs'),
  exists (evs : list Obs'),
    attempts (spyRt rt)
             (createOp (limitedPost (spyPlatform pf) l tgt) ctx req)
             d k v (w, lg)
    = (fst (attempts rt (createOp (limitedPost pf l tgt) ctx req) d k v' w),
       (snd (attempts rt (createOp (limitedPost pf l tgt) ctx req) d k v' w),
        lg ++ evs))
    /\ 1 <= length (allowsOf evs) <= S k
    /\ Forall (fun a => fst a = l) (allowsOf evs)
    /\ httpOf evs
       = repeat ("POST"%string, tgt)
                (length (List.filter snd (allowsOf evs)))
    /\ waitsOf evs = repeat d (length (allowsOf evs) - 1).
Proof.
  induction k as [|k IH]; intros v v' w lg; cbn [attempts];
    rewrite (createOp_eq (limitedPost (spyPlatform pf) l tgt)),
      (createOp_eq (limitedPost pf l tgt)), limitedPost_spied;
    destruct (stepLog_facts l tgt (fst (rate_Allow pf l w)))
      as (Ha & Hh & Hw);
    set (sl := if fst (rate_Allow pf l w)
               then [ObsAllow l true; ObsHTTP "POST" tgt]
               else [ObsAllow l false]) in *;
    destruct (limitedPost pf l tgt ctx (IKfDef req) w) as [[resp [e|]] w1];
    cbn [fst snd];
    try (destruct (assert_PermanentError e) as [Err [|]]; cbn [fst snd]).
  1, 2, 3, 4, 6: exists sl; rewrite Ha, Hh, Hw; cbn [length];
    (split; [reflexivity|]); (split; [lia|]);
    (split; [now repeat constructor|]);
    (split; [|reflexivity]);
    destruct (fst (rate_Allow pf l w)); reflexivity.
  cbn [timerWait spyRuntime].
  destruct (IH (resp, Some e) (resp, Some e) (timerWait rt d w1)
               ((lg ++ sl) ++ [ObsWait d]))
    as (evs & Hs & Hlen & Hall & Hhttp & Hwait).
  exists (sl ++ ObsWait d :: evs). rewrite Hs.
  rewrite allowsOf_app, httpOf_app, waitsOf_app, Ha, Hh, Hw.
  cbn [allowsOf httpOf waitsOf app length].
  split; [now rewrite <- !app_assoc|]. split; [lia|].
  split; [now constructor|]. split.
  - rewrite Hhttp. cbn [List.filter snd].
    destruct (fst (rate_Allow pf l w)); reflexivity.
  - rewrite Hwait.
    destruct (length (allowsOf evs)) as [|m]; [lia|].
    cbn [Nat.sub repeat]. now rewrite Nat.sub_0_r.
Qed.

(** X3.  On the client that [NewKfctlClient] builds, every attempt of
    [CreateDeployment] asks the one limiter of the client once, so that a
    call costs between 1 and 31 questions to it; only the attempts it admits
    make an HTTP round trip, each a POST to the create path; and a pause of
    two seconds follows every attempt but the last. *)
Theorem create_spends_limiter (pf : Platform') (rt : Runtime')
    (instance : string) (w : World) (u : URL) :
  url_Parse pf (sanitize instance) = inl u ->
  exists (l : Limiter) (w1 : World) (c : Client')
         (cS : @KfctlClient KfDef httpError Dyn TErr (World * list Obs')),
    rate_NewLimiter pf (Every time.Second) 100 w = (l, w1)
    /\ NewKfctlClient pf instance w = ((Some c, None), w1)
    /\ NewKfctlClient (spyPlatform pf) instance (w, [])
       = ((Some cS, None), (w1, []))
    /\ forall ctx req w0 fuel,
        31 <= fuel ->
        exists (res : Result) (w' : World) (log : list Obs'),
          CreateDeployment (spyRt rt) fuel cS ctx req (w0, [])
          = Some (res, (w', log))
          /\ CreateDeployment rt fuel c ctx req w0 = Some (res, w')
          /\ 1 <= length (allowsOf log) <= 31
          /\ Forall (fun a => fst a = l) (allowsOf log)
          /\ httpOf log
             = repeat ("POST"%string, copyURL pf u (KfctlCreatePath pf))
                      (length (List.filter snd (allowsOf log)))
          /\ waitsOf log
             = repeat 2000000000%Z (length (allowsOf log) - 1).
Proof.
  intros Hu.
  destruct (rate_NewLimiter pf (Every time.Second) 100 w) as [l w1] eqn:Hl.
  set (tgt := copyURL pf u (KfctlCreatePath pf)).
  exists l, w1,
    {| createEndpoint := limitedPost pf l tgt;
       getEndpoint := limitedPost pf l tgt |},
    {| createEndpoint := limitedPost (spyPlatform pf) l tgt;
       getEndpoint := limitedPost (spyPlatform pf) l tgt |}.
  split; [reflexivity|].
  split; [now apply NewKfctlClient_built|].
  split.
  { apply (NewKfctlClient_built (spyPlatform pf)); [exact Hu|].
    cbn [rate_NewLimiter spyPlatform]. now rewrite Hl. }
  intros ctx req w0 fuel Hf.
  rewrite (CreateDeployment_respond (spyRt rt)), (CreateDeployment_respond rt).
  rewrite (Retry_attempts (spyRt rt)), (Retry_attempts rt) by exact Hf.
  cbn [createEndpoint option_map].
  destruct (attempts_limited pf rt l tgt ctx req (2 * time.Second)%Z 30
              (INil, None) (INil, None) w0 [])
    as (evs & Hs & Hlen & Hall & Hhttp & Hwait).
  rewrite Hs. cbn [app].
  destruct (attempts rt (createOp (limitedPost pf l tgt) ctx req)
                     (2 * time.Second)%Z 30 (INil, None) w0)
    as [x wa].
  cbn [fst snd].
  exists (fst (respond rt (x, wa))), (snd (respond rt (x, wa))), evs.
  split.
  { refine (f_equal Some _). exact (respond_spied rt x wa evs). }
  split.
  { refine (f_equal Some _). apply surjective_pairing. }
  split; [lia|]. split; [exact Hall|]. split; [exact Hhttp | exact Hwait].
Qed.

(** X4.  On the client that [NewKfctlClient] builds, [GetLatestKfdef] asks the
    limiter exactly once.  If it is admitted it makes exactly one HTTP round
    trip, a POST to the path the client was built with; if it is refused it
    makes none and returns [ErrLimited] with a nil result, the world being as
    the limiter left it. *)
Theorem get_asks_limiter_once (pf : Platform') (rt : Runtime')
    (instance : string) (w : World) (u : URL) :
  url_Parse pf (sanitize instance) = inl u ->
  exists (l : Limiter) (w1 : World) (c : Client')
         (cS : @KfctlClient KfDef httpError Dyn TErr (World * list Obs')),
    rate_NewLimiter pf (Every time.Second) 100 w = (l, w1)
    /\ NewKfctlClient pf instance w = ((Some c, None), w1)
    /\ NewKfctlClient (spyPlatform pf) instance (w, [])
       = ((Some cS, None), (w1, []))
    /\ forall req w0,
        GetLatestKfdef (spyRt rt) cS req (w0, [])
        = (fst (GetLatestKfdef rt c req w0),
           (snd (GetLatestKfdef rt c req w0),
            if fst (rate_Allow pf l w0)
            then [ObsAllow l true;
                  ObsHTTP "POST" (copyURL pf u (KfctlCreatePath pf))]
            else [ObsAllow l false]))
        /\ (fst (rate_Allow pf l w0) = false ->
            GetLatestKfdef rt c req w0
            = ((None, Some ErrLimited), snd (rate_Allow pf l w0))).
Proof.
  intros Hu.
  destruct (rate_NewLimiter pf (Every time.Second) 100 w) as [l w1] eqn:Hl.
  set (tgt := copyURL pf u (KfctlCreatePath pf)).
  exists l, w1,
    {| createEndpoint := limitedPost pf l tgt;
       getEndpoint := limitedPost pf l tgt |},
    {| createEndpoint := limitedPost (spyPlatform pf) l tgt;
       getEndpoint := limitedPost (spyPlatform pf) l tgt |}.
  split; [reflexivity|].
  split; [now apply NewKfctlClient_built|].
  split.
  { apply (NewKfctlClient_built (spyPlatform pf)); [exact Hu|].
    cbn [rate_NewLimiter spyPlatform]. now rewrite Hl. }
  intros req w0.
  rewrite (GetLatestKfdef_respond (spyRt rt)), (GetLatestKfdef_respond rt).
  cbn [getEndpoint]. rewrite limitedPost_spied. cbn [fst snd app].
  split.
  - destruct (limitedPost pf l tgt Background (IKfDef req) w0)
      as [[resp e] wa].
    cbn [fst snd]. exact (respond_spied rt (e, (resp, e)) wa _).
  - intros Hno. rewrite limitedPost_eq, Hno. reflexivity.
Qed.

End Limited.

Section Provenance.

Context {KfDef httpError Dyn TErr World : Type}.

Local Abbreviation iface' := (@iface KfDef httpError Dyn).
Local Abbreviation error' := (@error httpError TErr).
Local Abbreviation Runtime' := (@Runtime KfDef httpError Dyn TErr World).
Local Abbreviation Endpoint' := (@Endpoint KfDef httpError Dyn TErr World).
Local Abbreviation Client' := (@KfctlClient KfDef httpError Dyn TErr World).
Local Abbreviation Obs' := (@Obs KfDef httpError Dyn TErr unit unit).
Local Abbreviation outcome' := (@outcome KfDef httpError Dyn TErr).
Local Abbreviation Tape' := (@Tape KfDef httpError Dyn).

Lemma finish_result (rt : Runtime') (o : outcome') (v : KfDef) :
  fst (finish rt o) = Some v <-> o = (IKfDefPtr (Some v), None).
Proof.
  destruct o as [resp [e|]]; unfold finish, Classify, ClassifyBy,
    successShape, errorShape; cbn [fst snd];
    [split; intros H; discriminate|].
  destruct resp as [| |[p|]| |]; cbn; split; intros H; try discriminate;
    congruence.
Qed.

Lemma finish_error (rt : Runtime') (o : outcome') (e : error') :
  snd (finish rt o) = Some e ->
  snd o = Some e
  \/ (snd o = None
      /\ ((exists p, fst o = IhttpErrorPtr p /\ e = EhttpErrorPtr p)
          \/ (successShape (fst o) = None /\ errorShape (fst o) = None
              /\ e = Errorf (unexpected ++ fst (Pformat rt (fst o)))))).
Proof.
  destruct o as [resp [e'|]]; unfold finish, Classify, ClassifyBy,
    successShape, errorShape; cbn [fst snd]; [now left|].
  intros H. right. split; [reflexivity|].
  destruct resp as [| |p|p|]; cbn in H |- *; try discriminate;
    injection H as <-; eauto.
Qed.

Lemma settle_result (o : outcome') (p : option KfDef) :
  settle o = (IKfDefPtr p, None)
  <-> fst o = IKfDefPtr p
      /\ (snd o = None \/ snd o = Some (PermanentError None)).
Proof.
  destruct o as [resp [e|]]; unfold settle, unwrap; cbn [fst snd].
  - destruct e as [| | | |[e'|]]; cbn; split;
      try (intros H; discriminate);
      try (intros [_ [H|H]]; discriminate).
    + intros H. injection H as ->. auto.
    + intros [-> _]. reflexivity.
  - split.
    + intros H. injection H as ->. auto.
    + intros [-> _]. reflexivity.
Qed.

Lemma finish_settle_error (rt : Runtime') (o : outcome') (e : error') :
  snd (finish rt (settle o)) = Some e ->
  (snd o = Some e /\ retryable o)
  \/ snd o = Some (PermanentError (Some e))
  \/ ((snd o = None \/ snd o = Some (PermanentError None))
      /\ ((exists p, fst o = IhttpErrorPtr p /\ e = EhttpErrorPtr p)
          \/ (successShape (fst o) = None /\ errorShape (fst o) = None
              /\ e = Errorf (unexpected ++ fst (Pformat rt (fst o)))))).
Proof.
  destruct o as [resp [e'|]]; cbn [fst snd].
  - destruct e' as [| | | |[e''|]];
      try (intros H; injection H as <-; left; split; reflexivity).
    + intros H. injection H as <-. right. now left.
    + intros H. right. right. split; [now right|].
      destruct (finish_error rt (resp, None) H) as [Hc|[_ Hc]];
        [discriminate | exact Hc].
  - intros H. right. right. split; [now left|].
    destruct (finish_error rt (resp, None) H) as [Hc|[_ Hc]];
      [discriminate | exact Hc].
Qed.

(** X5.  Neither method makes up a result or an error.  A non-nil result is
    the pointer that the call which ended the method returned as its
    response, without an error; an error is the error of that call, or the
    [httpError] that call returned as its response, or the
    unexpected-response error for a response of neither shape.  For
    [CreateDeployment] the call that ends it is the last attempt, the answer
    of the endpoint in the world reached by then; its error is returned
    as it is when it is one that is retried (the budget is then used up),
    and a permanent error stands for the error it wraps, a nil one
    included. *)
Theorem result_is_last_answer (rt : Runtime') (c : Client') (ctx : Context)
    (req : KfDef) (w : World) (k : nat) :
  (exists (res : Result) (w' : World) (log : list Obs') (os : list outcome')
          (last : outcome'),
      CreateDeployment (spyRuntime rt) (31 + k) (spyClient c) ctx req (w, [])
      = Some (res, (w', log))
      /\ CreateDeployment rt (31 + k) c ctx req w = Some (res, w')
      /\ callsOf log = os ++ [last]
      /\ last = outcomeAt rt (createEndpoint c) ctx (IKfDef req)
                          2000000000%Z (length os) w
      /\ (forall v,
            fst res = Some v
            <-> fst last = IKfDefPtr (Some v)
                /\ (snd last = None \/ snd last = Some (PermanentError None)))
      /\ (forall e, snd res = Some e ->
            (snd last = Some e /\ retryable last /\ length os = 30)
            \/ snd last = Some (PermanentError (Some e))
            \/ ((snd last = None \/ snd last = Some (PermanentError None))
                /\ ((exists p, fst last = IhttpErrorPtr p
                               /\ e = EhttpErrorPtr p)
                    \/ (successShape (fst last) = None
                        /\ errorShape (fst last) = None
                        /\ e = Errorf (unexpected
                                       ++ fst (Pformat rt (fst last))))))))
  /\ (forall v,
        fst (fst (GetLatestKfdef rt c req w)) = Some v
        <-> fst (getEndpoint c Background (IKfDef req) w)
            = (IKfDefPtr (Some v), None))
  /\ (forall e,
        snd (fst (GetLatestKfdef rt c req w)) = Some e ->
        snd (fst (getEndpoint c Background (IKfDef req) w)) = Some e
        \/ (snd (fst (getEndpoint c Background (IKfDef req) w)) = None
            /\ ((exists p,
                   fst (fst (getEndpoint c Background (IKfDef req) w))
                   = IhttpErrorPtr p
                   /\ e = EhttpErrorPtr p)
                \/ (successShape
                      (fst (fst (getEndpoint c Background (IKfDef req) w)))
                    = None
                    /\ errorShape
                         (fst (fst (getEndpoint c Background (IKfDef req) w)))
                       = None
                    /\ e = Errorf
                             (unexpected
                              ++ fst (Pformat rt
                                        (fst (fst (getEndpoint c Background
                                                     (IKfDef req) w))))))))).
Proof.
  split; [|split].
  - assert (Hf : 31 <= 31 + k) by lia.
    destruct (CreateDeployment_stops (URL:=unit) (Limiter:=unit)
                rt c ctx req w [] Hf)
      as (n & w' & Hn & Hpre & Hend & Hs & Hu).
    cbn [app] in Hs.
    set (out := fun i => outcomeAt rt (createEndpoint c) ctx (IKfDef req)
                                   2000000000%Z i w) in *.
    exists (finish rt (settle (out n))), w',
      (retryTrace 2000000000%Z (map out (seq 0 n) ++ [out n])),
      (map out (seq 0 n)), (out n).
    split; [exact Hs|]. split; [exact Hu|].
    rewrite callsOf_retryTrace, length_map, length_seq.
    split; [reflexivity|]. split; [reflexivity|]. split.
    + intros v. rewrite finish_result. apply settle_result.
    + intros e He. apply finish_settle_error in He.
      destruct He as [[He Hr]|He]; [|right; exact He].
      left. split; [exact He|]. split; [exact Hr|].
      destruct Hend as [->|Hnr]; [reflexivity | now elim Hnr].
  - intros v.
    destruct (GetLatestKfdef_run (URL:=unit) (Limiter:=unit) rt c req w [])
      as (o & w1 & w' & Hep & _ & -> & _).
    rewrite Hep. cbn [fst]. apply finish_result.
  - intros e.
    destruct (GetLatestKfdef_run (URL:=unit) (Limiter:=unit) rt c req w [])
      as (o & w1 & w' & Hep & _ & -> & _).
    rewrite Hep. cbn [fst]. apply finish_error.
Qed.

(** ** What is logged *)


Lemma tapeEndpoint_eq (ep : Endpoint') (ctx : Context) (rq : iface')
    (w : World) (t : Tape') :
  tapeEndpoint ep ctx rq (w, t)
  = (fst (ep ctx rq w), (snd (ep ctx rq w), t ++ [(ctx, rq)])).
Proof. unfold tapeEndpoint. now destruct (ep ctx rq w). Qed.







(** ** What is sent *)

Lemma attempts_taped (rt : Runtime') (ep : Endpoint') (ctx : Context)
    (req : KfDef) (d : Duration) :
  forall (k : nat) (v : iface' * option error') (w : World) (t : Tape'),
  exists (n : nat),
    attempts (tapeRuntime rt) (createOp (tapeEndpoint ep) ctx req) d k v
             (w, t)
    = (fst (attempts rt (createOp ep ctx req) d k v w),
       (snd (attempts rt (createOp ep ctx req) d k v w),
        t ++ repeat (ctx, IKfDef req) n))
    /\ 1 <= n <= S k.
Proof.
  induction k as [|k IH]; intros v w t; cbn [attempts];
    rewrite (createOp_eq (tapeEndpoint ep)), (createOp_eq ep),
      !tapeEndpoint_eq;
    destruct (ep ctx (IKfDef req) w) as [[resp [e|]] w1]; cbn [fst snd];
    try (destruct (assert_PermanentError e) as [Err [|]]; cbn [fst snd]).
  1, 2, 3, 4, 6: exists 1; split; [reflexivity | lia].
  cbn [timerWait tapeRuntime].
  destruct (IH (resp, Some e) (timerWait rt d w1) (t ++ [(ctx, IKfDef req)]))
    as (n & Hs & Hn).
  exists (S n). rewrite Hs. split; [|lia].
  cbn [repeat]. now rewrite <- app_assoc.
Qed.

Lemma respond_taped (rt : Runtime')
    (x : option error' * (iface' * option error')) (w : World) (t : Tape') :
  respond (tapeRuntime rt) (x, (w, t))
  = (fst (respond rt (x, w)), (snd (respond rt (x, w)), t)).
Proof.
  destruct x as [[e|] [resp e']]; [reflexivity|].
  unfold respond. destruct resp; cbn; try reflexivity;
    now destruct (Pformat rt _).
Qed.

(** X7.  Every attempt of [CreateDeployment] hands the endpoint the caller's
    context and the caller's request, the same at each retry, between 1 and
    31 times; [GetLatestKfdef] hands it the request once, under the
    background context. *)
Theorem same_request_every_attempt (rt : Runtime') (c : Client')
    (ctx : Context) (req : KfDef) (w : World) (k : nat) :
  (exists (res : Result) (w' : World) (n : nat),
      CreateDeployment (tapeRuntime rt) (31 + k) (tapeClient c) ctx req
                       (w, [])
      = Some (res, (w', repeat (ctx, IKfDef req) n))
      /\ CreateDeployment rt (31 + k) c ctx req w = Some (res, w')
      /\ 1 <= n <= 31)
  /\ GetLatestKfdef (tapeRuntime rt) (tapeClient c) req (w, [])
     = (fst (GetLatestKfdef rt c req w),
        (snd (GetLatestKfdef rt c req w), [(Background, IKfDef req)])).
Proof.
  split.
  - assert (Hf : 31 <= 31 + k) by lia.
    rewrite (CreateDeployment_respond (tapeRuntime rt)),
      (CreateDeployment_respond rt).
    rewrite (Retry_attempts (tapeRuntime rt)), (Retry_attempts rt)
      by exact Hf.
    cbn [createEndpoint tapeClient option_map].
    destruct (attempts_taped rt (createEndpoint c) ctx req
                (2 * time.Second)%Z 30 (INil, None) w [])
      as (n & Hs & Hn).
    set (A := attempts rt (createOp (createEndpoint c) ctx req)
                       (2 * time.Second)%Z 30 (INil, None) w) in *.
    exists (fst (respond rt (fst A, snd A))),
      (snd (respond rt (fst A, snd A))), n.
    split; [|split; [|lia]].
    + refine (f_equal Some _).
      etransitivity; [exact (f_equal (respond (tapeRuntime rt)) Hs)|].
      exact (respond_taped rt (fst A) (snd A) _).
    + refine (f_equal Some _). destruct A as [x wa]. cbn [fst snd].
      apply surjective_pairing.
  - rewrite (GetLatestKfdef_respond (tapeRuntime rt)),
      (GetLatestKfdef_respond rt).
    cbn [getEndpoint tapeClient]. rewrite tapeEndpoint_eq.
    destruct (getEndpoint c Background (IKfDef req) w) as [[resp e] w1].
    cbn [fst snd app]. exact (respond_taped rt (e, (resp, e)) w1 _).
Qed.

End Provenance.

(** ** These properties at work on the simulated deployment *)

(** The empty address is parsed as "http://". *)
Lemma sanitize_short_witness :
  String.length "" < 4 /\ sanitize "" = "http://"%string.
Proof. split; [cbn; lia|]. apply sanitize_short. cbn. lia. Defined.

(** Two failures, then an answer: three calls, two pauses. *)
Lemma create_returns_first_success_witness :
  31 <= 31 /\ 2 <= 30
  /\ (forall i, i < 2 ->
        retryable (outcomeAt Sim.rt (createEndpoint Sim.scripted) Background
                             (IKfDef "deployment"%string) 2000000000%Z i
                             SimMore.flaky))
  /\ exists w' log,
      CreateDeployment Sim.watchRt 31 (Sim.watch Sim.scripted) Background
                       "deployment"%string (SimMore.flaky, [])
      = Some ((Some "d1 ready"%string, None), (w', log))
      /\ length (callsOf log) = 3
      /\ waitsOf log = [2000000000%Z; 2000000000%Z].
Proof.
  assert (Hpre : forall i, i < 2 ->
            retryable (outcomeAt Sim.rt (createEndpoint Sim.scripted)
                                 Background (IKfDef "deployment"%string)
                                 2000000000%Z i SimMore.flaky)).
  { intros [|[|i]] Hi; [reflexivity | reflexivity | lia]. }
  split; [lia|]. split; [lia|]. split; [exact Hpre|].
  destruct (create_returns_first_success (URL:=string) (Limiter:=nat)
              Sim.rt Sim.scripted Background "deployment"%string
              SimMore.flaky (n:=2) (fuel:=31)
              (resp:=IKfDefPtr (Some "d1 ready"%string))
              (w1:=Sim.Build_World [] [] 4000000000%N [])
              (le_n 31) ltac:(lia) Hpre eq_refl)
    as (w' & log & Hs & _ & Hcalls & Hwaits & _).
  exists w', log. split; [exact Hs|]. split; [exact Hcalls | exact Hwaits].
Defined.

(** An endpoint that pays no attention to the context answers the same
    under a context that is closed as under the background context. *)
Lemma create_context_blind_witness :
  CreateDeployment Sim.rt 31 SimMore.deaf Background "deployment"%string
                   Sim.ready
  = CreateDeployment (withClosed Sim.rt (fun _ _ => true)) 31 SimMore.deaf
                     (Derived 0) "deployment"%string Sim.ready
  /\ option_map fst
       (CreateDeployment (withClosed Sim.rt (fun _ _ => true)) 31
                         SimMore.deaf (Derived 0) "deployment"%string
                         Sim.ready)
     = Some (Some "d1 ready"%string, None).
Proof.
  split; [|reflexivity].
  apply create_context_blind. intros rq w0. reflexivity.
Defined.

(** With the remote service down, one call to [CreateDeployment] asks the
    limiter 31 times and makes 31 round trips. *)
Lemma create_spends_limiter_witness :
  url_Parse Sim.pf (sanitize "localhost:8080")
  = inl "http://localhost:8080"%string
  /\ length (allowsOf (Sim.notebook
                         (Sim.createAt 31 Background "localhost:8080"
                                       Sim.down)))
     <= 31
  /\ httpOf (Sim.notebook
               (Sim.createAt 31 Background "localhost:8080" Sim.down))
     = repeat ("POST"%string,
               "http://localhost:8080/kfctl/apps/v1alpha2/create"%string)
              (length (List.filter snd
                         (allowsOf
                            (Sim.notebook
                               (Sim.createAt 31 Background "localhost:8080"
                                             Sim.down))))).
Proof.
  split; [reflexivity|].
  destruct (create_spends_limiter Sim.pf Sim.rt "localhost:8080" Sim.down
              (u:="http://localhost:8080"%string) eq_refl)
    as (l & w1 & c & cS & Hl & _ & HcS & Hrun).
  vm_compute in Hl. injection Hl as Hl Hw. subst l w1.
  destruct (Hrun Background "deployment"%string
                 (Sim.Build_World [] [100] 0%N []) 31 (le_n 31))
    as (res & w' & log & Hs & _ & Hlen & _ & Hhttp & _).
  assert (Hnb : Sim.notebook
                  (Sim.createAt 31 Background "localhost:8080" Sim.down)
                = log).
  { unfold Sim.createAt. rewrite HcS. unfold Sim.watchRt.
    exact (f_equal Sim.notebook Hs). }
  rewrite Hnb. split; [lia | exact Hhttp].
Defined.

(** A drained limiter: [GetLatestKfdef] asks it once and makes no round
    trip. *)
Lemma get_asks_limiter_once_witness :
  url_Parse Sim.pf (sanitize "localhost:8080")
  = inl "http://localhost:8080"%string
  /\ exists c cS,
      fst (fst (NewKfctlClient Sim.pf "localhost:8080" Sim.down)) = Some c
      /\ fst (fst (NewKfctlClient (spyPlatform Sim.pf) "localhost:8080"
                                  (Sim.down, [])))
         = Some cS
      /\ GetLatestKfdef Sim.watchRt cS "deployment"%string (Sim.drained, [])
         = ((None, Some ErrLimited), (Sim.drained, [ObsAllow 0 false]))
      /\ GetLatestKfdef Sim.rt c "deployment"%string Sim.drained
         = ((None, Some ErrLimited), Sim.drained).
Proof.
  split; [reflexivity|].
  destruct (get_asks_limiter_once Sim.pf Sim.rt "localhost:8080" Sim.down
              (u:="http://localhost:8080"%string) eq_refl)
    as (l & w1 & c & cS & Hl & Hc & HcS & Hget).
  vm_compute in Hl. injection Hl as Hl Hw. subst l w1.
  exists c, cS. split; [now rewrite Hc|]. split; [now rewrite HcS|].
  destruct (Hget "deployment"%string Sim.drained) as [Hs Hno].
  specialize (Hno eq_refl). split; [|exact Hno].
  etransitivity; [exact Hs|].
  exact (f_equal (fun g : Result * Sim.World =>
                    (fst g, (snd g, [ObsAllow (URL:=string) 0 false])))
                 Hno).
Defined.

(** A ready service: the result is the pointer of the only call. *)
Lemma result_is_last_answer_witness :
  fst (getEndpoint Sim.scripted Background (IKfDef "deployment"%string)
                   Sim.ready)
  = (IKfDefPtr (Some "d1 ready"%string), None)
  /\ fst (fst (GetLatestKfdef Sim.rt Sim.scripted "deployment"%string
                              Sim.ready))
     = Some "d1 ready"%string.
Proof.
  split; [reflexivity|].
  destruct (result_is_last_answer Sim.rt Sim.scripted Background
              "deployment"%string Sim.ready 0) as (_ & Hget & _).
  apply Hget. reflexivity.
Defined.

